(** * jellyfishsdk: playground providers, network configuration and the
      transaction construction pipeline

    A shallow embedding of

    - [packages/playground/src/bots/GenesisCoinbaseBot.ts]: the fee-rate,
      prevout and elliptic-pair providers handed to the transaction builder;
    - the root module's [ENV_VALIDATION_SCHEMA] (Joi schema of the process
      environment);
    - the parts of [jellyfish-transaction] and [jellyfish-transaction-builder]
      that the providers and the builder tests rely on: opcodes, the
      instruction codec and the build pipeline.  Those packages are not among
      the sources at hand; every definition that stands for one of them says
      so in its doc comment.

    Bytes are [Byte.byte], buffers are [list byte], [BigNumber] values are
    exact rationals, the process environment is a [gmap string string]. *)

From Stdlib Require Import ZArith NArith QArith Qcanon Lia Lqa List Bool.
From Stdlib Require Import Strings.Ascii Strings.String Strings.Byte.
From stdpp Require Import base option list gmap strings.
Import ListNotations.

#[local] Open Scope Z_scope.

(* ===================================================================== *)
(** ** Buffers *)
(* ===================================================================== *)

Module Buf.

Definition Buffer := list byte.

(** [buffer.writeUInt8(n)]: the low eight bits of [n]. *)
Definition byte_of_N (n : N) : byte :=
  match Byte.of_N (n mod 256)%N with
  | Some b => b
  | None => x00
  end.

(** [writeUIntLE(n, 0, w)]: [w] bytes, least significant first. *)
Fixpoint writeUIntLE (w : nat) (n : N) : Buffer :=
  match w with
  | O => []
  | S w' => byte_of_N n :: writeUIntLE w' (n / 256)%N
  end.

(** [readUIntLE(0, length)]: the number a little-endian buffer denotes. *)
Fixpoint readUIntLE (bs : Buffer) : N :=
  match bs with
  | [] => 0%N
  | b :: bs' => (Byte.to_N b + 256 * readUIntLE bs')%N
  end.

End Buf.
Import Buf.

(* ===================================================================== *)
(** ** BigNumber *)
(* ===================================================================== *)

(** [bignumber.js] values are arbitrary-precision decimals; the finite ones
    are modelled by the rational they denote.  [bn c p] is the decimal
    literal with coefficient [c] and [p] fractional digits, so
    [new BigNumber('0.00005000')] is [bn 5000 8]. *)
Module BigNumber.

Definition t := Q.

Definition bn (coef : Z) (places : nat) : t :=
  coef # Z.to_pos (10 ^ Z.of_nat places).

Definition ofZ (z : Z) : t := inject_Z z.

Definition plus (a b : t) : t := Qred (a + b).
Definition minus (a b : t) : t := Qred (a - b).
Definition multipliedBy (a b : t) : t := Qred (a * b).

(** [x.isInteger()] *)
Definition isInteger (a : t) : bool := (Zpos (Qden (Qred a)) =? 1)%Z.

(** [x.eq(y)]: comparison by value. *)
Definition eq (a b : t) : bool := Qeq_bool a b.

End BigNumber.

(* ===================================================================== *)
(** ** Opcodes and scripts *)
(* ===================================================================== *)

(** Modelled from the spec: [OP_CODES] and [Script] belong to the package
    [jellyfish-transaction], which is not among the sources.  The spec has a
    script as an ordered sequence of primitive opcodes (push-data, numeric
    pushes, data markers); the builder test spells the data marker as the
    byte [6a], and the locking script scenario spells the zero push as [00]
    and the push of a 20-byte hash as [14] followed by the hash.  A data
    push is its length prefix followed by the data, with the script push
    forms of the network: the length itself below 76, then the markers
    [4c], [4d], [4e] followed by a 1-, 2- or 4-byte little-endian length. *)
Module Script.

Inductive Endian := little | big.

(** Modelled from the spec: the opcodes of [OP_CODES] that the providers
    and the builder put on a script stack (zero push, data marker, data
    push). *)
Inductive OPCode :=
| OP_0
| OP_RETURN
| PUSHDATA (data : Buffer).

(** Modelled from the spec: [OP_CODES.OP_PUSHDATA(buffer, endian)], missing
    with [jellyfish-transaction]; the opcode keeps the bytes in
    little-endian order, a big-endian buffer is reversed first. *)
Definition OP_PUSHDATA (buffer : Buffer) (endian : Endian) : OPCode :=
  match endian with
  | little => PUSHDATA buffer
  | big => PUSHDATA (rev buffer)
  end.

(** Modelled from the spec: the length prefix of a data push. *)
Definition getLenOpBuffer (len : N) : Buffer :=
  if (len <? 76)%N then [byte_of_N len]
  else if (len <=? 255)%N then x4c :: writeUIntLE 1 len
  else if (len <=? 65535)%N then x4d :: writeUIntLE 2 len
  else x4e :: writeUIntLE 4 len.

(** Modelled from the spec: the bytes of one opcode ([00] for the zero
    push, [6a] for the data marker, prefix and data for a push). *)
Definition asBuffer (op : OPCode) : Buffer :=
  match op with
  | OP_0 => [x00]
  | OP_RETURN => [x6a]
  | PUSHDATA data => getLenOpBuffer (N.of_nat (length data)) ++ data
  end.

Record Script := { stack : list OPCode }.

(** The opcode stream of a script: the buffers of its opcodes, in order. *)
Definition toBuffer (s : Script) : Buffer :=
  concat (map asBuffer (stack s)).

End Script.
Import Script.

(* ===================================================================== *)
(** ** GenesisCoinbaseBot.ts: the providers *)
(* ===================================================================== *)

Module Coinbase.

(** The result of [mining.estimateSmartFee]: [feerate] and [errors] are
    optional fields.  The fee rate is the decimal the node reported. *)
Record SmartFeeEstimation := {
  feerate : option BigNumber.t;
  errors : option (list string);
  blocks : Z
}.

(** An entry of [wallet.listUnspent], typed [any] in the source; the
    fields [mapPrevout] reads. *)
Record UTXO := {
  utxo_txid : string;
  utxo_vout : Z;
  utxo_amount : BigNumber.t;
  utxo_tokenId : option Z
}.

(** [Prevout] of [jellyfish-transaction-builder], as [mapPrevout] fills it. *)
Record Prevout := {
  txid : string;
  vout : Z;
  value : BigNumber.t;
  script : Script;
  tokenId : option Z
}.

(** The calls of [ApiClient] the providers make.  A call stands for its
    response: the providers only ever [await] it. *)
Record ApiClient := {
  estimateSmartFee : Z -> SmartFeeEstimation;
  listUnspent : Z -> Z -> list string -> list UTXO
}.

Record EllipticPair := { publicKey : Buffer }.

Section Providers.

(** [HASH160] and [Bech32.fromPubKey] of [jellyfish-crypto]. *)
Variable HASH160 : Buffer -> Buffer.
Variable Bech32_fromPubKey : Buffer -> string -> string.

(** [CoinbaseFeeRateProvider.estimate]: the default when
    [result.feerate === undefined], or when [result.errors] is defined and
    not empty; the reported rate otherwise. *)
Definition estimate (apiClient : ApiClient) : BigNumber.t :=
  let result := estimateSmartFee apiClient 1 in
  match feerate result with
  | None => BigNumber.bn 5000 8
  | Some rate =>
      match errors result with
      | Some (_ :: _) => BigNumber.bn 5000 8
      | _ => rate
      end
  end.

(** [CoinbasePrevoutProvider.mapPrevout] *)
Definition mapPrevout (utxo : UTXO) (pubKey : Buffer) : Prevout :=
  {| txid := utxo_txid utxo;
     vout := utxo_vout utxo;
     value := utxo_amount utxo;
     script := {| stack := [OP_0; OP_PUSHDATA (HASH160 pubKey) little] |};
     tokenId := utxo_tokenId utxo |}.

(** [CoinbasePrevoutProvider.collect] *)
Definition collect (apiClient : ApiClient) (ellipticPair : EllipticPair)
    (minBalance : BigNumber.t) : list Prevout :=
  let pubKey := publicKey ellipticPair in
  let address := Bech32_fromPubKey pubKey "bcrt" in
  let unspent := listUnspent apiClient 1 9999999 [address] in
  map (fun utxo => mapPrevout utxo pubKey) unspent.

(** [CoinbasePrevoutProvider.all] *)
Definition all (apiClient : ApiClient) (ellipticPair : EllipticPair)
    : list Prevout :=
  let pubKey := publicKey ellipticPair in
  let unspent :=
    listUnspent apiClient 1 9999999 [Bech32_fromPubKey pubKey "bcrt"] in
  map (fun utxo => mapPrevout utxo pubKey) unspent.

(** [CoinbaseEllipticPairProvider.script] ([script] alone names the field
    of [Prevout]). *)
Definition pairScript (ellipticPair : EllipticPair) : Script :=
  {| stack := [OP_0; OP_PUSHDATA (HASH160 (publicKey ellipticPair)) little] |}.

(** [CoinbaseEllipticPairProvider.get] *)
Definition get (ellipticPair : EllipticPair) (prevout : Prevout)
    : EllipticPair :=
  ellipticPair.

End Providers.

End Coinbase.

(* ===================================================================== *)
(** ** Results *)
(* ===================================================================== *)

Inductive Result (E A : Type) :=
| Ok (a : A)
| Err (e : E).
Arguments Ok {E A} a.
Arguments Err {E A} e.

(* ===================================================================== *)
(** ** RootModule: validation of the environment *)
(* ===================================================================== *)

Module Config.

(** [process.env]: a map from variable names to strings. *)
Abbreviation Env := (gmap string string).

(** The Joi rules [ENV_VALIDATION_SCHEMA] uses.  A rule sees the value of
    its key, [None] when the variable is not set, and gives the validated
    value, or nothing when the value is refused.  [default] applies to an
    unset key only; [valid] admits the listed strings and no other. *)

Section Joi.

(** Joi's conversion of a string to a number and to a boolean. *)
Variable Joi_number : string -> option Q.
Variable Joi_boolean : string -> option bool.

(** [Joi.string().valid(...allowed).default(dflt)] *)
Definition stringValid (allowed : list string) (dflt : string)
    (v : option string) : option string :=
  match v with
  | None => Some dflt
  | Some s => if bool_decide (s ∈ allowed) then Some s else None
  end.

(** [Joi.string().regex(pattern).default(dflt)] *)
Definition stringRegex (pattern : string -> bool) (dflt : string)
    (v : option string) : option string :=
  match v with
  | None => Some dflt
  | Some s => if pattern s then Some s else None
  end.

(** [Joi.number().default(dflt)] *)
Definition numberDefault (dflt : Q) (v : option string) : option Q :=
  match v with
  | None => Some dflt
  | Some s => Joi_number s
  end.

(** [Joi.boolean()]: an unset key stays unset. *)
Definition boolean (v : option string) : option (option bool) :=
  match v with
  | None => Some None
  | Some s => option_map Some (Joi_boolean s)
  end.

Definition isDigit (c : Ascii.ascii) : bool :=
  let n := Ascii.nat_of_ascii c in ((48 <=? n) && (n <=? 57))%nat.

(** Strips the longest prefix of digits; the flag tells whether there
    was at least one. *)
Fixpoint digits (s : string) : bool * string :=
  match s with
  | String c rest =>
      if isDigit c then (true, snd (digits rest)) else (false, s)
  | EmptyString => (false, s)
  end.

(** [/^v[0-9]+(\.[0-9]+)?$/] *)
Definition versionPattern (s : string) : bool :=
  match s with
  | String "v"%char rest =>
      let (some, rest1) := digits rest in
      some &&
      match rest1 with
      | EmptyString => true
      | String "."%char rest2 =>
          let (some2, rest3) := digits rest2 in
          some2 && bool_decide (rest3 = EmptyString)
      | _ => false
      end
  | _ => false
  end.

Record Validated := {
  NODE_ENV : string;
  PORT : Q;
  API_VERSION : string;
  API_NETWORK : string;
  PLAYGROUND_ENABLE : option bool
}.

Definition rule_NODE_ENV := stringValid ["production"; "test"] "test".
Definition rule_PORT := numberDefault (3000 # 1).
Definition rule_API_VERSION := stringRegex versionPattern "v1".
Definition rule_API_NETWORK :=
  stringValid ["regtest"; "testnet"; "mainnet"] "regtest".
Definition rule_PLAYGROUND_ENABLE := boolean.

(** The key of a rule that refused its value, for the error message. *)
Definition refused {A} (key : string) (checked : option A) : list string :=
  match checked with
  | Some _ => []
  | None => [key]
  end.

(** [ENV_VALIDATION_SCHEMA().validate(process.env)], as [ConfigModule]
    runs it: unknown keys are allowed, every refused key is reported,
    and the configuration is the validated values. *)
Definition validate (env : Env) : Result (list string) Validated :=
  match rule_NODE_ENV (env !! "NODE_ENV"),
        rule_PORT (env !! "PORT"),
        rule_API_VERSION (env !! "API_VERSION"),
        rule_API_NETWORK (env !! "API_NETWORK"),
        rule_PLAYGROUND_ENABLE (env !! "PLAYGROUND_ENABLE") with
  | Some e, Some p, Some v, Some n, Some g =>
      Ok {| NODE_ENV := e; PORT := p; API_VERSION := v;
            API_NETWORK := n; PLAYGROUND_ENABLE := g |}
  | e, p, v, n, g =>
      Err (refused "NODE_ENV" e ++ refused "PORT" p
           ++ refused "API_VERSION" v ++ refused "API_NETWORK" n
           ++ refused "PLAYGROUND_ENABLE" g)
  end.

End Joi.

End Config.

(* ===================================================================== *)
(** ** Instruction codec *)
(* ===================================================================== *)

(** Modelled from the spec: the instruction codec of [jellyfish-transaction]
    (the [OP_DEFI_TX_*] composers the builder and its tests call) is not
    among the sources.  Following section 4.1: an instruction is a one-byte
    selector followed by its fields in declared order; fields are
    variable-length unsigned integers (1/3/5/9-byte forms chosen by value),
    fixed-width little-endian integers, length-prefixed byte strings,
    amounts as 64-bit integers of minor units, and nested records written
    field by field.  The selector table is a static registry from selector
    byte to the layout of that kind. *)
Module Codec.

Inductive CodecError := UnsupportedInstruction | MalformedInstruction.

(** The layout of a field. *)
Inductive Ty :=
| TVarUInt
| TUInt (w : nat)
| TAmount
| TVarBytes
| TFixedBytes (n : nat)
| TUnit
| TPair (a b : Ty)
| TVec (a : Ty).

#[export] Instance Ty_eq_dec : EqDecision Ty.
Proof. solve_decision. Defined.

(** The values of a field of a given layout. *)
Fixpoint val (t : Ty) : Type :=
  match t with
  | TVarUInt => N
  | TUInt _ => N
  | TAmount => N
  | TVarBytes => Buffer
  | TFixedBytes _ => Buffer
  | TUnit => unit
  | TPair a b => (val a * val b)%type
  | TVec a => list (val a)
  end.

Definition two64 : N := 18446744073709551616%N.

(** What a layout can carry. *)
Fixpoint representable (t : Ty) : val t -> bool :=
  match t return val t -> bool with
  | TVarUInt => fun n => (n <? two64)%N
  | TUInt w => fun n => (n <? 256 ^ N.of_nat w)%N
  | TAmount => fun n => (n <? two64)%N
  | TVarBytes => fun bs => (N.of_nat (length bs) <? two64)%N
  | TFixedBytes n => fun bs => (length bs =? n)%nat
  | TUnit => fun _ => true
  | TPair a b => fun p => representable a (fst p) && representable b (snd p)
  | TVec a => fun l =>
      (N.of_nat (length l) <? two64)%N && forallb (representable a) l
  end.

(** *** Primitive writers *)

(** Modelled from the spec: the variable-length unsigned integer of
    section 4.1, in its 1-, 3-, 5- and 9-byte forms. *)
Definition writeVarUInt (n : N) : Buffer :=
  if (n <? 253)%N then [byte_of_N n]
  else if (n <=? 65535)%N then xfd :: writeUIntLE 2 n
  else if (n <=? 4294967295)%N then xfe :: writeUIntLE 4 n
  else xff :: writeUIntLE 8 n.

(** Modelled from the spec: the fields of an instruction, written in
    declared order. *)
Fixpoint encodeTy (t : Ty) : val t -> Buffer :=
  match t return val t -> Buffer with
  | TVarUInt => fun n => writeVarUInt n
  | TUInt w => fun n => writeUIntLE w n
  | TAmount => fun n => writeUIntLE 8 n
  | TVarBytes => fun bs => writeVarUInt (N.of_nat (length bs)) ++ bs
  | TFixedBytes _ => fun bs => bs
  | TUnit => fun _ => []
  | TPair a b => fun p => encodeTy a (fst p) ++ encodeTy b (snd p)
  | TVec a => fun l =>
      writeVarUInt (N.of_nat (length l)) ++ concat (map (encodeTy a) l)
  end.

(** *** Primitive readers: the value read and the bytes left *)

Definition Reader (A : Type) := Buffer -> Result CodecError (A * Buffer).

Definition readBytes (n : nat) : Reader Buffer := fun bs =>
  if (length bs <? n)%nat then Err MalformedInstruction
  else Ok (firstn n bs, skipn n bs).

Definition readUInt (w : nat) : Reader N := fun bs =>
  match readBytes w bs with
  | Ok (head, rest) => Ok (readUIntLE head, rest)
  | Err e => Err e
  end.

Definition readVarUInt : Reader N := fun bs =>
  match bs with
  | [] => Err MalformedInstruction
  | b :: rest =>
      let v := Byte.to_N b in
      if (v <? 253)%N then Ok (v, rest)
      else if (v =? 253)%N then readUInt 2 rest
      else if (v =? 254)%N then readUInt 4 rest
      else readUInt 8 rest
  end.

(** Reads [k] values with the same reader, one after the other. *)
Fixpoint readMany {A} (r : Reader A) (k : nat) : Reader (list A) := fun bs =>
  match k with
  | O => Ok ([], bs)
  | S k' =>
      match r bs with
      | Ok (v, rest) =>
          match readMany r k' rest with
          | Ok (vs, rest') => Ok (v :: vs, rest')
          | Err e => Err e
          end
      | Err e => Err e
      end
  end.

(** Modelled from the spec: the fields of an instruction, read in
    declared order; a buffer that ends early is malformed. *)
Fixpoint decodeTy (t : Ty) : Reader (val t) :=
  match t return Reader (val t) with
  | TVarUInt => readVarUInt
  | TUInt w => readUInt w
  | TAmount => readUInt 8
  | TVarBytes => fun bs =>
      match readVarUInt bs with
      | Ok (n, rest) => readBytes (N.to_nat n) rest
      | Err e => Err e
      end
  | TFixedBytes n => readBytes n
  | TUnit => fun bs => Ok (tt, bs)
  | TPair a b => fun bs =>
      match decodeTy a bs with
      | Ok (x, rest) =>
          match decodeTy b rest with
          | Ok (y, rest') => Ok ((x, y), rest')
          | Err e => Err e
          end
      | Err e => Err e
      end
  | TVec a => fun bs =>
      match readVarUInt bs with
      | Ok (n, rest) => readMany (decodeTy a) (N.to_nat n) rest
      | Err e => Err e
      end
  end.

(** *** Instructions *)

(** An instruction: the selector of its kind and its fields, laid out as
    the kind declares. *)
Record Instruction := {
  selector : byte;
  kind : Ty;
  fields : val kind
}.

Section Registry.

(** The selector table: the layout registered for a selector byte. *)
Variable registry : byte -> option Ty.

Definition registered (x : Instruction) : bool :=
  bool_decide (registry (selector x) = Some (kind x)).

(** Modelled from the spec: [encode(instruction)] of the missing codec;
    selector byte, then the fields.  An instruction of a kind the table
    does not know is refused. *)
Definition encode (x : Instruction) : Result CodecError Buffer :=
  if registered x then Ok (selector x :: encodeTy (kind x) (fields x))
  else Err UnsupportedInstruction.

(** Modelled from the spec: [decode(bytes)] of the missing codec; dispatch
    on the selector byte, then read the fields; the instruction ends where
    the buffer ends. *)
Definition decode (bs : Buffer) : Result CodecError Instruction :=
  match bs with
  | [] => Err MalformedInstruction
  | s :: body =>
      match registry s with
      | None => Err UnsupportedInstruction
      | Some t =>
          match decodeTy t body with
          | Ok (v, []) => Ok {| selector := s; kind := t; fields := v |}
          | Ok (_, _ :: _) => Err MalformedInstruction
          | Err e => Err e
          end
      end
  end.

End Registry.

End Codec.

(* ===================================================================== *)
(** ** Transaction builder *)
(* ===================================================================== *)

(** Modelled from the spec: [P2WPKHTransactionBuilder] and the transaction
    types belong to the packages [jellyfish-transaction-builder] and
    [jellyfish-transaction]; the sources at hand hold only callers and tests
    of them.  The definitions below follow sections 3, 4.2, 4.5 and 4.6 of
    the spec: values are integer minor units, the three providers are
    capabilities the builder is given, and a build request runs the six
    steps of section 4.6 in order.  What the spec leaves to configuration or
    to other components is a section variable: the fee as a function of the
    rate and the input/output count, the dust threshold, the iteration cap,
    the signature hash and the signing primitive. *)
Module Builder.

Import Codec.

(** Minor units per kilobyte. *)
Definition FeeRate := Z.

(** The fixed fallback rate: 0.00005000 per kilobyte, in minor units. *)
Definition DEFAULT_FEE_RATE : FeeRate := 5000.

(** [x.multipliedBy(1e8)] as an integer: the count of minor units of a
    decimal value, when it has one. *)
Definition toMinorUnits (x : BigNumber.t) : option Z :=
  let scaled := BigNumber.multipliedBy x (BigNumber.ofZ 100000000) in
  if BigNumber.isInteger scaled then Some (Qnum scaled) else None.

(** Modelled from the spec: the spendable output of section 3, its value
    in minor units. *)
Record SpendableOutput := {
  so_txid : string;
  so_index : N;
  so_value : Z;
  so_script : Buffer;
  so_token : option N
}.

(** Modelled from the spec: the transaction types of section 3. *)
Record TxInput := {
  in_txid : string;
  in_index : N;
  in_sequence : N
}.

Record TxOutput := {
  out_value : Z;
  out_script : Script
}.

Definition Witness := list Buffer.

Record Transaction := {
  version : N;
  vin : list TxInput;
  vout : list TxOutput;
  witness : list Witness;
  lockTime : N
}.

Record KeyPair := {
  privateKey : Buffer;
  publicPoint : Buffer
}.

(** What a fee provider answers. *)
Inductive FeeResponse :=
| Estimated (rate : FeeRate)
| NoEstimate
| ProviderError.

(** The three capabilities of section 4.5. *)
Record Providers := {
  prevoutCollect : Z -> list SpendableOutput;
  feeEstimate : FeeResponse;
  keyFor : SpendableOutput -> option KeyPair
}.

(** The error taxonomy of section 7, build-time part, with the fee
    condition that the builder recovers from. *)
Inductive BuildError :=
| InsufficientFunds
| UnsupportedInstruction
| SigningFailure
| FeeEstimationUnavailable.

(** What a build does to its collaborators, in order. *)
Inductive Event :=
| AskFeeRate
| AskPrevouts (minimumValue : Z)
| ResolveKey (index : nat)
| SignInput (index : nat).

(** A build step: it may fail, and it records the calls it made. *)
Definition M (A : Type) := list Event -> Result BuildError A * list Event.

Definition ret {A} (a : A) : M A := fun log => (Ok a, log).
Definition fail {A} (e : BuildError) : M A := fun log => (Err e, log).
Definition emit (ev : Event) : M unit := fun log => (Ok tt, log ++ [ev]).
Definition bind {A B} (m : M A) (k : A -> M B) : M B := fun log =>
  match m log with
  | (Ok a, log') => k a log'
  | (Err e, log') => (Err e, log')
  end.

#[local] Notation "'let*' x ':=' m 'in' k" := (bind m (fun x => k))
  (at level 10, x name, m at level 100, k at level 200).
#[local] Notation "'run*' m 'in' k" := (bind m (fun _ => k))
  (at level 10, m at level 100, k at level 200).

Record Request := {
  instruction : option Instruction;
  transfers : list TxOutput;
  changeScript : Script
}.

(** Steps 1 to 4 of a build: what is spent, what is paid, and the fee. *)
Record Plan := {
  spent : list SpendableOutput;
  outputs : list TxOutput;
  fee : Z
}.

Definition sumValues (l : list SpendableOutput) : Z :=
  fold_right (fun p acc => so_value p + acc) 0 l.

Definition sumOutputs (l : list TxOutput) : Z :=
  fold_right (fun o acc => out_value o + acc) 0 l.

(** Modelled from the spec: [embed(instructionBytes)] of the missing
    script assembler; the data marker, then the payload as a data push. *)
Definition embed (instructionBytes : Buffer) : Script :=
  {| stack := [OP_RETURN; OP_PUSHDATA instructionBytes little] |}.

(** The calls of step 6. *)
Definition isSigningEvent (ev : Event) : bool :=
  match ev with
  | ResolveKey _ | SignInput _ => true
  | _ => false
  end.

(** One witness per input, none of them empty. *)
Definition fullySigned (tx : Transaction) : Prop :=
  length (witness tx) = length (vin tx)
  /\ Forall (fun w => w <> []) (witness tx).

(** No witness that holds anything. *)
Definition fullyUnsigned (tx : Transaction) : Prop :=
  Forall (fun w => w = []) (witness tx).

Section Build.

Variable registry : byte -> option Ty.
Variable calculateFee : FeeRate -> nat -> nat -> Z.
Variable DUST_THRESHOLD : Z.
Variable ITERATION_CAP : nat.
Variable TX_VERSION : N.
Variable signatureHash : Transaction -> nat -> Buffer -> Z -> Buffer.
Variable sign : Buffer -> Buffer -> option Buffer.

(** Modelled from the spec: step 1 of the missing builder, the
    embedded-data output of zero value of a non-transfer operation. *)
Definition embedInstruction (req : Request) : M (list TxOutput) :=
  match instruction req with
  | None => ret []
  | Some x =>
      match encode registry x with
      | Ok bytes => ret [{| out_value := 0; out_script := embed bytes |}]
      | Err _ => fail UnsupportedInstruction
      end
  end.

(** Modelled from the spec: the rate of a build of the missing builder;
    the provider's, or the fixed default when the provider has none to
    give. *)
Definition rateOf (p : Providers) : FeeRate :=
  match feeEstimate p with
  | Estimated rate => rate
  | NoEstimate | ProviderError => DEFAULT_FEE_RATE
  end.

Definition feeRate (p : Providers) : M FeeRate :=
  run* emit AskFeeRate in
  ret (rateOf p).

(** Whether the inputs selected so far cover the required funding and
    the fee for their count. *)
Definition covers (required : Z) (rate : FeeRate) (nOut : nat)
    (selected : list SpendableOutput) : bool :=
  required + calculateFee rate (length selected) nOut
    <=? sumValues selected.

(** Modelled from the spec: step 3 of the missing builder; take outputs
    from the pool one at a time until the selection covers, give up when
    the pool or the cap runs out. *)
Fixpoint select (required : Z) (rate : FeeRate) (nOut : nat)
    (cap : nat) (pool selected : list SpendableOutput)
    : option (list SpendableOutput) :=
  match cap with
  | O => None
  | S cap' =>
      match pool with
      | [] => None
      | p :: rest =>
          let selected' := selected ++ [p] in
          if covers required rate nOut selected' then Some selected'
          else select required rate nOut cap' rest selected'
      end
  end.

Definition fundInputs (p : Providers) (required : Z) (rate : FeeRate)
    (nOut : nat) : M (list SpendableOutput) :=
  run* emit (AskPrevouts required) in
  match select required rate nOut ITERATION_CAP
          (prevoutCollect p required) [] with
  | Some selected => ret selected
  | None => fail InsufficientFunds
  end.

(** Modelled from the spec: step 4 of the missing builder; the outputs in
    order (embedded, transfers, change) and the fee, where a remainder
    under the dust threshold goes to the fee. *)
Definition assemble (rate : FeeRate) (fixedOuts : list TxOutput)
    (change : Script) (selected : list SpendableOutput) : Plan :=
  let estimated :=
    calculateFee rate (length selected) (S (length fixedOuts)) in
  let remainder := sumValues selected - sumOutputs fixedOuts - estimated in
  if remainder <? DUST_THRESHOLD then
    {| spent := selected; outputs := fixedOuts;
       fee := estimated + remainder |}
  else
    {| spent := selected;
       outputs :=
         fixedOuts ++ [{| out_value := remainder; out_script := change |}];
       fee := estimated |}.

(** Modelled from the spec: steps 1 to 4 of the missing builder, with the
    required funding of step 2. *)
Definition funding (p : Providers) (req : Request) : M Plan :=
  let* embedded := embedInstruction req in
  let* rate := feeRate p in
  let fixedOuts := embedded ++ transfers req in
  let nOut := S (length fixedOuts) in
  let required := sumOutputs (transfers req) + calculateFee rate 1 nOut in
  let* selected := fundInputs p required rate nOut in
  ret (assemble rate fixedOuts (changeScript req) selected).

Definition toInput (o : SpendableOutput) : TxInput :=
  {| in_txid := so_txid o; in_index := so_index o;
     in_sequence := 4294967295 |}.

(** Modelled from the spec: step 5 of the missing builder, the unsigned
    container with empty witnesses. *)
Definition unsignedTx (pl : Plan) : Transaction :=
  {| version := TX_VERSION;
     vin := map toInput (spent pl);
     vout := outputs pl;
     witness := [];
     lockTime := 0 |}.

(** Modelled from the spec: step 6 of the missing builder for one input;
    resolve the key, hash, sign; the witness is the signature and the
    public key. *)
Definition signOne (p : Providers) (tx : Transaction) (index : nat)
    (o : SpendableOutput) : M Witness :=
  run* emit (ResolveKey index) in
  match keyFor p o with
  | None => fail SigningFailure
  | Some key =>
      run* emit (SignInput index) in
      let hash := signatureHash tx index (so_script o) (so_value o) in
      match sign hash (privateKey key) with
      | None => fail SigningFailure
      | Some signature => ret [signature; publicPoint key]
      end
  end.

(** Modelled from the spec: step 6 of the missing builder, every input in
    input order. *)
Fixpoint signAll (p : Providers) (tx : Transaction) (index : nat)
    (os : list SpendableOutput) : M (list Witness) :=
  match os with
  | [] => ret []
  | o :: rest =>
      let* w := signOne p tx index o in
      let* ws := signAll p tx (S index) rest in
      ret (w :: ws)
  end.

Definition attach (tx : Transaction) (ws : list Witness) : Transaction :=
  {| version := version tx; vin := vin tx; vout := vout tx;
     witness := ws; lockTime := lockTime tx |}.

(** Modelled from the spec: a build request of the missing builder, start
    to end; the transaction is handed out only when every input is
    signed. *)
Definition build (p : Providers) (req : Request) : M Transaction :=
  let* pl := funding p req in
  let tx := unsignedTx pl in
  let* ws := signAll p tx 0 (spent pl) in
  ret (attach tx ws).

(** What the caller of a build gets. *)
Definition run (p : Providers) (req : Request)
    : Result BuildError Transaction :=
  fst (build p req []).

(** The calls a build made. *)
Definition trace (p : Providers) (req : Request) : list Event :=
  snd (build p req []).

End Build.

End Builder.

(* ===================================================================== *)
(** ** Vocabulary of the statements *)
(* ===================================================================== *)

Module Statements.

Import Coinbase Config.

(** The node gave no usable estimate: no fee rate in the response, or a
    response that lists errors. *)
Definition feeUnavailable (r : SmartFeeEstimation) : bool :=
  match feerate r, errors r with
  | None, _ => true
  | Some _, Some (_ :: _) => true
  | Some _, _ => false
  end.

(** The target networks. *)
Definition networks : list string := ["regtest"; "testnet"; "mainnet"].

(** The validation failed and names the key among the refused ones. *)
Definition rejects (key : string) (r : Result (list string) Validated)
    : bool :=
  match r with
  | Err keys => bool_decide (key ∈ keys)
  | Ok _ => false
  end.

(** The network of a validated configuration. *)
Definition networkOf (r : Result (list string) Validated) : option string :=
  match r with
  | Ok c => Some (API_NETWORK c)
  | Err _ => None
  end.

(** The validation failed on keys other than the given one. *)
Definition failsElsewhere (key : string) (r : Result (list string) Validated)
    : bool :=
  match r with
  | Err keys => negb (bool_decide (key ∈ keys))
  | Ok _ => false
  end.

Import Codec Builder.

(** The operation of a request is a plain transfer or an instruction of
    a registered kind. *)
Definition supported (registry : byte -> option Ty) (req : Request) : bool :=
  match instruction req with
  | None => true
  | Some x => registered registry x
  end.

(** The outputs a request fixes before any input is chosen: the embedded
    instruction, if any, then the declared transfers. *)
Definition fixedOutputs (registry : byte -> option Ty) (req : Request)
    : list TxOutput :=
  match instruction req with
  | None => []
  | Some x =>
      match encode registry x with
      | Ok bytes => [{| out_value := 0; out_script := embed bytes |}]
      | Err _ => []
      end
  end ++ transfers req.

(** The output count the fee is estimated for: the fixed outputs and the
    change output. *)
Definition outputCount (registry : byte -> option Ty) (req : Request) : nat :=
  S (length (fixedOutputs registry req)).

(** The required funding of step 2. *)
Definition requiredFunding (registry : byte -> option Ty)
    (calculateFee : FeeRate -> nat -> nat -> Z) (p : Providers)
    (req : Request) : Z :=
  sumOutputs (transfers req)
  + calculateFee (rateOf p) 1%nat (outputCount registry req).

(** The fee provider reported an error or had no estimate. *)
Definition noRate (r : FeeResponse) : bool :=
  match r with
  | Estimated _ => false
  | NoEstimate | ProviderError => true
  end.

(** The same providers, with another answer from the fee provider. *)
Definition withFee (p : Providers) (r : FeeResponse) : Providers :=
  {| prevoutCollect := prevoutCollect p;
     feeEstimate := r;
     keyFor := keyFor p |}.

End Statements.

(* ===================================================================== *)
(** ** Sample data *)
(* ===================================================================== *)

Module Samples.

Import Coinbase.

(** A 20-byte hash. *)
Definition sampleHash : Buffer :=
  [x01; x02; x03; x04; x05; x06; x07; x08; x09; x0a;
   x0b; x0c; x0d; x0e; x0f; x10; x11; x12; x13; x14].

Definition samplePair : EllipticPair := {| publicKey := [x02] |}.

(** An unspent output of 0.99, as the node lists it. *)
Definition sampleUtxo : UTXO :=
  {| utxo_txid := "aa"; utxo_vout := 0;
     utxo_amount := BigNumber.bn 99 2; utxo_tokenId := None |}.

(** A node that has no fee estimate to give. *)
Definition quietNode : ApiClient :=
  {| estimateSmartFee := fun _ =>
       {| feerate := None;
          errors := Some ["Insufficient data or no feerate found"];
          blocks := 0 |};
     listUnspent := fun _ _ _ => [sampleUtxo] |}.

Import Codec Builder.

(** A selector table with the vote instruction: the decision byte and the
    two 32-byte identifiers of the builder test. *)
Definition voteLayout : Ty :=
  TPair (TUInt 1) (TPair (TFixedBytes 32) (TPair (TFixedBytes 32) TUnit)).

Definition sampleRegistry (s : byte) : option Ty :=
  match s with
  | x4f => Some voteLayout
  | _ => None
  end.

Definition sampleVote : Instruction :=
  {| selector := x4f; kind := voteLayout;
     fields := (1%N, (repeat x11 32, (repeat x22 32, tt))) |}.

(** A constant fee of 0.00050000. *)
Definition flatFee (rate : FeeRate) (nIn nOut : nat) : Z := 50000.

Definition sampleKey : KeyPair :=
  {| privateKey := [x07]; publicPoint := [x02; x03] |}.

Definition sampleHashOf (tx : Transaction) (index : nat) (scriptCode : Buffer)
    (value : Z) : Buffer := scriptCode.

Definition sampleSign (hash key : Buffer) : option Buffer :=
  Some (key ++ hash).

(** One spendable output of 10.00000000. *)
Definition tenCoins : SpendableOutput :=
  {| so_txid := "aa"; so_index := 0; so_value := 1000000000;
     so_script := x00 :: x14 :: sampleHash; so_token := None |}.

Definition richProviders : Providers :=
  {| prevoutCollect := fun _ => [tenCoins];
     feeEstimate := NoEstimate;
     keyFor := fun _ => Some sampleKey |}.

Definition emptyProviders : Providers :=
  {| prevoutCollect := fun _ => [];
     feeEstimate := ProviderError;
     keyFor := fun _ => Some sampleKey |}.

Definition ownerScript : Script :=
  {| stack := [OP_0; OP_PUSHDATA sampleHash little] |}.

Definition voteRequest : Request :=
  {| instruction := Some sampleVote; transfers := [];
     changeScript := ownerScript |}.

Definition sampleRun (p : Providers) (req : Request) :=
  run sampleRegistry flatFee 546 16 4 sampleHashOf sampleSign p req.

Definition emptyTx : Transaction :=
  {| version := 4; vin := []; vout := []; witness := []; lockTime := 0 |}.

(** The transaction built for the vote from the output of 10.00000000. *)
Definition builtVote : Transaction :=
  Eval vm_compute in
    match sampleRun richProviders voteRequest with
    | Ok tx => tx
    | Err _ => emptyTx
    end.

(** Two outputs of 0.00060000 each. *)
Definition smallCoin (index : N) : SpendableOutput :=
  {| so_txid := "bb"; so_index := index; so_value := 60000;
     so_script := x00 :: x14 :: sampleHash; so_token := None |}.

Definition smallProviders : Providers :=
  {| prevoutCollect := fun _ => [smallCoin 0; smallCoin 1];
     feeEstimate := Estimated 1000;
     keyFor := fun _ => Some sampleKey |}.

End Samples.

(* ===================================================================== *)
(** ** GenesisCoinbaseBot.ts: the provider bundle *)
(* ===================================================================== *)

Module Bundle.

Import Coinbase.

(** The three provider objects, with the fields their constructors take. *)
Record CoinbaseFeeRateProvider := { fee_apiClient : ApiClient }.

Record CoinbasePrevoutProvider := {
  prevout_apiClient : ApiClient;
  prevout_ellipticPair : EllipticPair
}.

Record CoinbaseEllipticPairProvider := {
  elliptic_ellipticPair : EllipticPair
}.

(** [CoinbaseProviders]: the bundle and the pair it was last given. *)
Record CoinbaseProviders := {
  fee : CoinbaseFeeRateProvider;
  prevout : CoinbasePrevoutProvider;
  elliptic : CoinbaseEllipticPairProvider;
  ellipticPair : EllipticPair;
  apiClient : ApiClient
}.

(** [new CoinbaseProviders(apiClient)].  [keyPair] is the field initialiser
    [Elliptic.fromPrivKey(WIF.decode(this.PRIV_KEY).privateKey)]. *)
Definition newCoinbaseProviders (keyPair : EllipticPair) (client : ApiClient)
    : CoinbaseProviders :=
  {| fee := {| fee_apiClient := client |};
     elliptic := {| elliptic_ellipticPair := keyPair |};
     prevout := {| prevout_apiClient := client;
                   prevout_ellipticPair := keyPair |};
     ellipticPair := keyPair;
     apiClient := client |}.

(** [CoinbaseProviders.setEllipticPair] *)
Definition setEllipticPair (this : CoinbaseProviders) (pair : EllipticPair)
    : CoinbaseProviders :=
  {| fee := fee this;
     elliptic := {| elliptic_ellipticPair := pair |};
     prevout := {| prevout_apiClient := prevout_apiClient (prevout this);
                   prevout_ellipticPair := pair |};
     ellipticPair := pair;
     apiClient := apiClient this |}.

Section Calls.

Variable HASH160 : Buffer -> Buffer.
Variable Bech32_fromPubKey : Buffer -> string -> string.

(** [providers.prevout.collect(minBalance)] *)
Definition prevoutCollect (this : CoinbaseProviders) (minBalance : BigNumber.t)
    : list Prevout :=
  collect HASH160 Bech32_fromPubKey (prevout_apiClient (prevout this))
    (prevout_ellipticPair (prevout this)) minBalance.

(** [providers.elliptic.script()] *)
Definition ellipticScript (this : CoinbaseProviders) : Script :=
  pairScript HASH160 (elliptic_ellipticPair (elliptic this)).

(** [providers.elliptic.get(prevout)] *)
Definition ellipticGet (this : CoinbaseProviders) (p : Prevout)
    : EllipticPair :=
  get (elliptic_ellipticPair (elliptic this)) p.

(** [providers.fee.estimate()] *)
Definition feeEstimate (this : CoinbaseProviders) : BigNumber.t :=
  estimate (fee_apiClient (fee this)).

End Calls.

End Bundle.

(* ===================================================================== *)
(** ** GenesisCoinbaseBot.ts: simulated oracle feeds *)
(* ===================================================================== *)

Module Feeds.

(** [x.lt(y)], [x.gt(y)], [x.times(y)] *)
Definition lt (a b : BigNumber.t) : bool := negb (Qle_bool b a).
Definition gt (a b : BigNumber.t) : bool := lt b a.
Definition times (a b : BigNumber.t) : BigNumber.t :=
  BigNumber.multipliedBy a b.

Inductive PriceDirection :=
| UP_ABSOLUTE
| DOWN_ABSOLUTE
| UP_PERCENTAGE
| DOWN_PERCENTAGE
| RANDOM
| STABLE.

(** [PriceDirectionFunctions[direction](price, priceChange)].  [random] is
    what [Math.random()] gives when the function of [RANDOM] calls it. *)
Definition PriceDirectionFunctions (direction : PriceDirection) (random : Q)
    (price priceChange : BigNumber.t) : BigNumber.t :=
  match direction with
  | UP_ABSOLUTE => BigNumber.plus price priceChange
  | DOWN_ABSOLUTE => BigNumber.minus price priceChange
  | UP_PERCENTAGE => BigNumber.plus price (times price priceChange)
  | DOWN_PERCENTAGE => BigNumber.minus price (times price priceChange)
  | RANDOM =>
      let change := times price priceChange in
      if lt (1 # 2) random || lt price (BigNumber.ofZ 1)
      then BigNumber.plus price change
      else BigNumber.minus price change
  | STABLE => price
  end.

Record SimulatedOracleFeed := {
  token : string;
  amount : BigNumber.t;
  change : BigNumber.t;
  direction : PriceDirection
}.

(** The payload of [builder.oracles.setOracleData]. *)
Record TokenAmount := {
  price_amount : BigNumber.t;
  price_currency : string
}.

Record TokenPrice := {
  price_token : string;
  prices : list TokenAmount
}.

Record SetOracleData := {
  oracleId : string;
  timestamp : BigNumber.t;
  tokens : list TokenPrice
}.

(** The [feeds] the bot starts with. *)
Definition initialFeeds : list SimulatedOracleFeed :=
  [ {| token := "CU10"; amount := BigNumber.ofZ 10;
       change := BigNumber.bn 1 4; direction := UP_PERCENTAGE |};
    {| token := "TU10"; amount := BigNumber.ofZ 10;
       change := BigNumber.bn 1 4; direction := UP_PERCENTAGE |};
    {| token := "CD10"; amount := BigNumber.ofZ 1000000000;
       change := BigNumber.bn 1 4; direction := DOWN_PERCENTAGE |};
    {| token := "TD10"; amount := BigNumber.ofZ 1000000000;
       change := BigNumber.bn 1 4; direction := DOWN_PERCENTAGE |};
    {| token := "CS25"; amount := BigNumber.ofZ 25;
       change := BigNumber.ofZ 0; direction := STABLE |};
    {| token := "TS25"; amount := BigNumber.ofZ 25;
       change := BigNumber.ofZ 0; direction := STABLE |};
    {| token := "CR50"; amount := BigNumber.ofZ 1000;
       change := BigNumber.bn 33 2; direction := RANDOM |};
    {| token := "TR50"; amount := BigNumber.ofZ 1000;
       change := BigNumber.bn 33 2; direction := RANDOM |};
    {| token := "DFI"; amount := BigNumber.ofZ 100;
       change := BigNumber.ofZ 0; direction := STABLE |};
    {| token := "BTC"; amount := BigNumber.ofZ 50;
       change := BigNumber.ofZ 0; direction := STABLE |};
    {| token := "ETH"; amount := BigNumber.ofZ 10;
       change := BigNumber.ofZ 0; direction := STABLE |};
    {| token := "USDC"; amount := BigNumber.ofZ 1;
       change := BigNumber.ofZ 0; direction := STABLE |};
    {| token := "USDT"; amount := BigNumber.bn 99 2;
       change := BigNumber.ofZ 0; direction := STABLE |} ].

(** The filter of [setupOracleData]:
    [amount.gt(0.00000001) && amount.lt(1_200_000_000)]. *)
Definition publishable (value : SimulatedOracleFeed) : bool :=
  gt (amount value) (BigNumber.bn 1 8)
  && lt (amount value) (BigNumber.ofZ 1200000000).

(** The [tokens] of one [setOracleData] call: the feeds that pass the
    filter, each with its one price in USD. *)
Definition oracleTokens (feeds : list SimulatedOracleFeed) : list TokenPrice :=
  map (fun v =>
         {| price_token := token v;
            prices := [{| price_amount := amount v;
                          price_currency := "USD" |}] |})
      (List.filter publishable feeds).

Section Rounds.

(** The successive results of [Math.random()], and of
    [Math.floor(Date.now() / 1000)]. *)
Variable random : nat -> Q.
Variable now : nat -> Z.

(** The remap at the end of a round, [this.feeds.map(...)]: every feed
    moves by its direction; the feeds of direction [RANDOM] take the draws,
    in feed order.  [drawn] counts the draws made so far. *)
Fixpoint remap (drawn : nat) (feeds : list SimulatedOracleFeed)
    : list SimulatedOracleFeed * nat :=
  match feeds with
  | [] => ([], drawn)
  | value :: rest =>
      let func := PriceDirectionFunctions (direction value) in
      let value' :=
        {| token := token value;
           amount := func (random drawn) (amount value) (change value);
           change := change value;
           direction := direction value |} in
      let drawn' :=
        match direction value with
        | RANDOM => S drawn
        | _ => drawn
        end in
      let (rest', drawn'') := remap drawn' rest in
      (value' :: rest', drawn'')
  end.

(** [setupOracleData], as far as the feeds go: one round per oracle id, in
    order; each round hands its payload to the builder and then remaps the
    feeds.  The result is the payloads in order, the feeds left and the
    count of draws.  Funding and sending, which a round also does, do not
    touch the feeds. *)
Fixpoint setupOracleData (round drawn : nat) (oracleIds : list string)
    (feeds : list SimulatedOracleFeed)
    : list SetOracleData * (list SimulatedOracleFeed * nat) :=
  match oracleIds with
  | [] => ([], (feeds, drawn))
  | id :: rest =>
      let data :=
        {| oracleId := id;
           timestamp := BigNumber.ofZ (now round);
           tokens := oracleTokens feeds |} in
      let (feeds', drawn') := remap drawn feeds in
      let (sent, final) := setupOracleData (S round) drawn' rest feeds' in
      (data :: sent, final)
  end.

End Rounds.

End Feeds.

(* ===================================================================== *)
(** ** GenesisCoinbaseBot.ts: funding and waiting *)
(* ===================================================================== *)

Module Bot.

Import Coinbase.

Section Node.

(** The node behind [apiClient]: a state that the wallet calls change and
    the listing calls read.  [Amount] is the [number] handed to [fund]. *)
Variable Node : Type.
Variable Amount : Type.
Variable sendToAddress : Node -> string -> Amount -> Node.
Variable generatetoaddress : Node -> Z -> string -> Z -> Node.
Variable clientAt : Node -> ApiClient.
Variable getBalance : Node -> BigNumber.t.

Variable Bech32_fromPubKey : Buffer -> string -> string.
Variable OWNER_ADDR : string.
Variable ellipticPair : EllipticPair.

(** [generateToAddress] *)
Definition generateToAddress (node : Node) : Node :=
  generatetoaddress node 1 OWNER_ADDR 1.

(** [fund(amount, method)]: send, mine a block, list the unspent outputs of
    the providers' address, and start over while there is none.  The fuel
    bounds the number of rounds; the source has no bound. *)
Fixpoint fund (fuel : nat) (node : Node) (amount : Amount)
    (method : option string) : option Node :=
  match fuel with
  | O => None
  | S fuel' =>
      let node1 := sendToAddress node OWNER_ADDR amount in
      let node2 := generateToAddress node1 in
      let pubKey := publicKey ellipticPair in
      let unspent :=
        listUnspent (clientAt node2) 1 9999999
          [Bech32_fromPubKey pubKey "bcrt"] in
      if (length unspent =? 0)%nat
      then fund fuel' node2 amount (Some "dex")
      else Some node2
  end.

(** [waitForBalance(balance)]: mine blocks while the wallet balance is
    under [balance].  The fuel bounds the number of blocks. *)
Fixpoint waitForBalance (fuel : nat) (node : Node) (balance : BigNumber.t)
    : option Node :=
  let current := getBalance node in
  if Feeds.lt current balance then
    match fuel with
    | O => None
    | S fuel' => waitForBalance fuel' (generateToAddress node) balance
    end
  else Some node.

(** One round of [fund]. *)
Definition fundRound (amount : Amount) (node : Node) : Node :=
  generateToAddress (sendToAddress node OWNER_ADDR amount).

(** The unspent outputs of the providers' address, as [fund] and the
    prevout provider list them. *)
Definition unspentAt (node : Node) : list UTXO :=
  listUnspent (clientAt node) 1 9999999
    [Bech32_fromPubKey (publicKey ellipticPair) "bcrt"].

End Node.

End Bot.

(* ===================================================================== *)
(** ** Vocabulary of the further statements *)
(* ===================================================================== *)

Module Shapes.

(** A string of digits. *)
Fixpoint allDigits (s : string) : bool :=
  match s with
  | EmptyString => true
  | String c rest => Config.isDigit c && allDigits rest
  end.

Definition isEmpty (s : string) : bool :=
  match s with
  | EmptyString => true
  | String _ _ => false
  end.

(** A version: the letter v, digits, and possibly a dot and digits. *)
Definition isVersion (s : string) : Prop :=
  exists major,
    major <> EmptyString /\ allDigits major = true
    /\ (s = String "v"%char major
        \/ exists minor,
             minor <> EmptyString /\ allDigits minor = true
             /\ s = String "v"%char (major +:+ String "."%char minor)).

(** The environment sets none of the keys of the schema. *)
Definition unset (env : Config.Env) : Prop :=
  env !! "NODE_ENV" = None /\ env !! "PORT" = None
  /\ env !! "API_VERSION" = None /\ env !! "API_NETWORK" = None
  /\ env !! "PLAYGROUND_ENABLE" = None.

(** The bundle's two key holders hold the pair of the bundle. *)
Definition consistent (this : Bundle.CoinbaseProviders) : Prop :=
  Bundle.elliptic_ellipticPair (Bundle.elliptic this)
  = Bundle.ellipticPair this
  /\ Bundle.prevout_ellipticPair (Bundle.prevout this)
     = Bundle.ellipticPair this.

(** The number of feeds that take a draw in a remap. *)
Definition randomFeeds (feeds : list Feeds.SimulatedOracleFeed) : nat :=
  length (List.filter
            (fun v => match Feeds.direction v with
                      | Feeds.RANDOM => true
                      | _ => false
                      end) feeds).

(** A token price as the bot publishes it: one price, in USD, strictly
    between 0.00000001 and 1200000000. *)
Definition wellPriced (tp : Feeds.TokenPrice) : Prop :=
  exists a,
    Feeds.prices tp
    = [{| Feeds.price_amount := a; Feeds.price_currency := "USD" |}]
    /\ (1 # 100000000 < a)%Q /\ (a < 1200000000 # 1)%Q.

End Shapes.

(* ===================================================================== *)
(** ** Further sample data *)
(* ===================================================================== *)

Module MoreSamples.

Import Coinbase Samples Feeds.

(** A node is the number of blocks mined to the owner; it lists one
    unspent output from the second block on, and its balance is 50 per
    block. *)
Definition sampleSend (node : nat) (address : string) (amount : Z) : nat := node.
Definition sampleGenerate (node : nat) (n : Z) (address : string) (tries : Z)
    : nat := S node.
Definition sampleClientAt (node : nat) : ApiClient :=
  {| estimateSmartFee := estimateSmartFee quietNode;
     listUnspent := fun _ _ _ =>
       if (node <? 2)%nat then [] else [sampleUtxo] |}.
Definition sampleBalance (node : nat) : BigNumber.t :=
  BigNumber.ofZ (50 * Z.of_nat node).
Definition sampleBech32 (pubKey : Buffer) (hrp : string) : string := hrp.

Definition otherPair : EllipticPair := {| publicKey := [x03] |}.

(** A response with a fee rate and an empty list of errors. *)
Definition busyNode : ApiClient :=
  {| estimateSmartFee := fun _ =>
       {| feerate := Some (BigNumber.bn 2 4); errors := Some []; blocks := 1 |};
     listUnspent := fun _ _ _ => [sampleUtxo; sampleUtxo] |}.

Definition upFeed : SimulatedOracleFeed :=
  {| token := "CU10"; amount := BigNumber.ofZ 10;
     change := BigNumber.bn 1 4; direction := UP_PERCENTAGE |}.

Definition downFeed : SimulatedOracleFeed :=
  {| token := "CD10"; amount := BigNumber.ofZ 1000000000;
     change := BigNumber.bn 1 4; direction := DOWN_PERCENTAGE |}.

Definition stableFeed : SimulatedOracleFeed :=
  {| token := "DFI"; amount := BigNumber.ofZ 100;
     change := BigNumber.ofZ 0; direction := STABLE |}.

Definition pennyFeed : SimulatedOracleFeed :=
  {| token := "CR50"; amount := BigNumber.bn 50 2;
     change := BigNumber.bn 33 2; direction := RANDOM |}.

Definition halves (draw : nat) : Q := 1 # 4.
Definition epoch (round : nat) : Z := 1600000000 + Z.of_nat round.

End MoreSamples.

(* ===================================================================== *)
(** ** The providers of GenesisCoinbaseBot.ts *)
(* ===================================================================== *)

Module ProviderFacts.

Import Coinbase Statements Samples.

Section WithCrypto.

Variable HASH160 : Buffer -> Buffer.
Variable Bech32_fromPubKey : Buffer -> string -> string.

(** C10. [collect(minBalance)] returns the list [all()] returns, whatever
    the minimum balance asked for: the argument is not used. *)
Theorem collect_eq_all (apiClient : ApiClient) (pair : EllipticPair)
    (minBalance : BigNumber.t) :
  collect HASH160 Bech32_fromPubKey apiClient pair minBalance
  = all HASH160 Bech32_fromPubKey apiClient pair.
Proof. reflexivity. Qed.

(** Both go through every unspent output the node lists. *)
Lemma collect_length (apiClient : ApiClient) (pair : EllipticPair)
    (minBalance : BigNumber.t) :
  length (collect HASH160 Bech32_fromPubKey apiClient pair minBalance)
  = length (listUnspent apiClient 1 9999999
              [Bech32_fromPubKey (publicKey pair) "bcrt"]).
Proof. unfold collect. now rewrite length_map. Qed.

(** C7. For a 20-byte public-key hash [H], the locking script of the
    elliptic-pair provider, and the one [mapPrevout] gives every prevout,
    is the zero push followed by the push of [H]: the 22 bytes
    [00 14] ++ [H]. *)
Theorem locking_script_bytes (pair : EllipticPair) (H : Buffer)
    (utxo : UTXO) :
  HASH160 (publicKey pair) = H ->
  length H = 20%nat ->
  stack (pairScript HASH160 pair) = [OP_0; OP_PUSHDATA H little]
  /\ toBuffer (pairScript HASH160 pair) = x00 :: x14 :: H
  /\ length (toBuffer (pairScript HASH160 pair)) = 22%nat
  /\ toBuffer (script (mapPrevout HASH160 utxo (publicKey pair)))
     = x00 :: x14 :: H.
Proof.
  intros HH Hlen.
  assert (Hbuf : toBuffer {| stack := [OP_0; OP_PUSHDATA H little] |}
                 = x00 :: x14 :: H).
  { unfold toBuffer. cbn [stack map concat asBuffer OP_PUSHDATA].
    rewrite Hlen, app_nil_r. reflexivity. }
  unfold pairScript, mapPrevout. cbn [script]. rewrite HH.
  repeat split; try assumption.
  rewrite Hbuf. cbn [length]. now rewrite Hlen.
Qed.

(** The fee-rate provider on a response with no usable estimate. *)
Lemma estimate_fallback (apiClient : ApiClient) :
  feeUnavailable (estimateSmartFee apiClient 1) = true ->
  estimate apiClient = BigNumber.bn 5000 8.
Proof.
  unfold feeUnavailable, estimate. cbv zeta.
  destruct (feerate _); [|reflexivity].
  destruct (errors _) as [[|e es]|]; intros Hu; try discriminate Hu.
  reflexivity.
Qed.

(** The fee-rate provider on a response with an estimate. *)
Lemma estimate_passes (apiClient : ApiClient) :
  feeUnavailable (estimateSmartFee apiClient 1) = false ->
  Some (estimate apiClient) = feerate (estimateSmartFee apiClient 1).
Proof.
  unfold feeUnavailable, estimate. cbv zeta.
  destruct (feerate _); [|discriminate].
  destruct (errors _) as [[|e es]|]; intros Hu; try discriminate Hu;
    reflexivity.
Qed.

End WithCrypto.

Lemma locking_script_bytes_witness :
  toBuffer (pairScript (fun _ => sampleHash) samplePair)
  = x00 :: x14 :: sampleHash.
Proof.
  apply (locking_script_bytes (fun _ => sampleHash) samplePair sampleHash
           sampleUtxo); reflexivity.
Defined.

End ProviderFacts.

(* ===================================================================== *)
(** ** Values of spendable outputs *)
(* ===================================================================== *)

Module ValueFacts.

Import Coinbase Builder Samples.

Lemma Qred_inject_Z (n : Z) : Qred (inject_Z n) = inject_Z n.
Proof.
  apply Qred_identity. cbn. apply Z.gcd_1_r.
Qed.

(** A value that is [n] hundred-millionths has exactly [n] minor units. *)
Lemma toMinorUnits_exact (x : BigNumber.t) (n : Z) :
  (x == n # 100000000)%Q -> toMinorUnits x = Some n.
Proof.
  intros Hx. unfold toMinorUnits, BigNumber.multipliedBy, BigNumber.ofZ.
  assert (Hs : Qred (x * inject_Z 100000000) = inject_Z n).
  { rewrite <- (Qred_inject_Z n). apply Qred_complete. rewrite Hx.
    unfold Qeq, Qmult, inject_Z. cbn. lia. }
  rewrite Hs. unfold BigNumber.isInteger. rewrite Qred_inject_Z.
  reflexivity.
Qed.

(** C8, as stated, fails: the value of a prevout is the amount the node
    reported, a decimal count of whole coins, and need not be an
    integer.  The output of 0.99 has the value 99/100. *)
Lemma value_not_integer :
  ~ (forall (HASH160 : Buffer -> Buffer) (utxo : UTXO) (pubKey : Buffer),
       BigNumber.isInteger (value (mapPrevout HASH160 utxo pubKey)) = true).
Proof.
  intros Hall.
  specialize (Hall (fun b => b) sampleUtxo (publicKey samplePair)).
  vm_compute in Hall. discriminate Hall.
Qed.

(** C8, amended.  The value of a prevout is exactly the decimal amount
    the node reported, in whole coins; when that amount is [n]
    hundred-millionths (at most 8 fractional digits) its count of minor
    units is exactly [n], with nothing rounded. *)
Theorem value_exact (HASH160 : Buffer -> Buffer) (utxo : UTXO)
    (pubKey : Buffer) (n : Z) :
  (utxo_amount utxo == n # 100000000)%Q ->
  value (mapPrevout HASH160 utxo pubKey) = utxo_amount utxo
  /\ toMinorUnits (value (mapPrevout HASH160 utxo pubKey)) = Some n.
Proof.
  intros Hn. split; [reflexivity|].
  now apply toMinorUnits_exact.
Qed.

Lemma value_exact_witness :
  toMinorUnits (value (mapPrevout (fun b => b) sampleUtxo [x02]))
  = Some 99000000.
Proof.
  apply (value_exact (fun b => b) sampleUtxo [x02] 99000000).
  reflexivity.
Defined.

End ValueFacts.

(* ===================================================================== *)
(** ** Validation of the environment *)
(* ===================================================================== *)

Module ConfigFacts.

Import Config Statements.

Section WithJoi.

Variable Joi_number : string -> option Q.
Variable Joi_boolean : string -> option bool.

(** The rule of [API_NETWORK], case by case. *)
Lemma check_network (v : option string) :
  rule_API_NETWORK v
  = match v with
    | None => Some "regtest"
    | Some s => if bool_decide (s ∈ networks) then Some s else None
    end.
Proof. reflexivity. Qed.

Lemma validate_network (env : Env) :
  match rule_API_NETWORK (env !! "API_NETWORK") with
  | Some n =>
      networkOf (validate Joi_number Joi_boolean env) = Some n
      \/ failsElsewhere "API_NETWORK"
           (validate Joi_number Joi_boolean env) = true
  | None => rejects "API_NETWORK" (validate Joi_number Joi_boolean env) = true
  end.
Proof.
  unfold validate, refused.
  destruct (rule_API_NETWORK _) as [n|];
    destruct (rule_NODE_ENV _);
    destruct (rule_PORT _ _);
    destruct (rule_API_VERSION _);
    destruct (rule_PLAYGROUND_ENABLE _ _);
    cbn; auto.
Qed.

(** C9. The environment validation knows exactly three networks,
    regtest, testnet and mainnet.  With [API_NETWORK] set to one of
    them the validated configuration carries it; with [API_NETWORK]
    set to anything else the validation fails and names that key; with
    [API_NETWORK] unset the configuration carries regtest.  (A
    validation may still fail on another key, and then names only
    other keys.) *)
Theorem api_network_validation (env : Env) :
  networks = ["regtest"; "testnet"; "mainnet"]
  /\ match env !! "API_NETWORK" with
     | None =>
         networkOf (validate Joi_number Joi_boolean env) = Some "regtest"
         \/ failsElsewhere "API_NETWORK"
              (validate Joi_number Joi_boolean env) = true
     | Some s =>
         if bool_decide (s ∈ networks) then
           networkOf (validate Joi_number Joi_boolean env) = Some s
           \/ failsElsewhere "API_NETWORK"
                (validate Joi_number Joi_boolean env) = true
         else
           rejects "API_NETWORK"
             (validate Joi_number Joi_boolean env) = true
     end
  /\ networkOf (validate Joi_number Joi_boolean ∅) = Some "regtest"
  /\ Forall (fun s =>
               networkOf (validate Joi_number Joi_boolean
                            {[ "API_NETWORK" := s ]}) = Some s)
       networks.
Proof.
  split; [reflexivity|]. split.
  - pose proof (validate_network env) as Hv.
    rewrite check_network in Hv.
    destruct (env !! "API_NETWORK") as [s|]; [|exact Hv].
    destruct (bool_decide (s ∈ networks)); exact Hv.
  - split; [reflexivity|].
    repeat constructor.
Qed.

End WithJoi.

End ConfigFacts.

(* ===================================================================== *)
(** ** The instruction codec round trip *)
(* ===================================================================== *)

Module CodecFacts.

Import Codec.

Lemma to_N_byte_of_N (n : N) : Byte.to_N (byte_of_N n) = (n mod 256)%N.
Proof.
  unfold byte_of_N.
  destruct (Byte.of_N (n mod 256)) as [b|] eqn:Hb.
  - now apply Byte.to_of_N.
  - apply Byte.of_N_None_iff in Hb.
    pose proof (N.mod_upper_bound n 256). lia.
Qed.

Lemma length_writeUIntLE (w : nat) (n : N) : length (writeUIntLE w n) = w.
Proof.
  revert n. induction w as [|w IH]; intros n; cbn; [reflexivity|].
  now rewrite IH.
Qed.

Lemma read_writeUIntLE (w : nat) (n : N) :
  readUIntLE (writeUIntLE w n) = (n mod 256 ^ N.of_nat w)%N.
Proof.
  revert n. induction w as [|w IH]; intros n.
  - cbn. now rewrite N.mod_1_r.
  - cbn [writeUIntLE readUIntLE]. rewrite to_N_byte_of_N, IH.
    rewrite Nat2N.inj_succ, N.pow_succ_r'.
    rewrite (N.Div0.mod_mul_r n 256 (256 ^ N.of_nat w)). reflexivity.
Qed.

Lemma readBytes_app (n : nat) (xs rest : Buffer) :
  length xs = n -> readBytes n (xs ++ rest) = Ok (xs, rest).
Proof.
  intros Hn. unfold readBytes.
  assert (Hlt : (length (xs ++ rest) <? n)%nat = false).
  { apply Nat.ltb_ge. rewrite length_app. lia. }
  rewrite Hlt. subst n.
  now rewrite take_app_length, drop_app_length.
Qed.

Lemma readUInt_write (w : nat) (n : N) (rest : Buffer) :
  (n < 256 ^ N.of_nat w)%N ->
  readUInt w (writeUIntLE w n ++ rest) = Ok (n, rest).
Proof.
  intros Hn. unfold readUInt.
  rewrite readBytes_app by apply length_writeUIntLE.
  rewrite read_writeUIntLE, N.mod_small by assumption. reflexivity.
Qed.

Lemma readVarUInt_write (n : N) (rest : Buffer) :
  (n < two64)%N -> readVarUInt (writeVarUInt n ++ rest) = Ok (n, rest).
Proof.
  intros Hn. unfold writeVarUInt, two64 in *.
  destruct (n <? 253)%N eqn:H1.
  - apply N.ltb_lt in H1. cbn [app readVarUInt].
    rewrite to_N_byte_of_N, N.mod_small by lia.
    apply N.ltb_lt in H1. now rewrite H1.
  - apply N.ltb_ge in H1.
    destruct (n <=? 65535)%N eqn:H2; [|destruct (n <=? 4294967295)%N eqn:H3].
    + apply N.leb_le in H2. cbn [app readVarUInt].
      change (Byte.to_N xfd) with 253%N. cbn [N.ltb N.eqb N.compare Pos.compare Pos.compare_cont Pos.eqb].
      apply readUInt_write. cbn. lia.
    + apply N.leb_le in H3. cbn [app readVarUInt].
      change (Byte.to_N xfe) with 254%N. cbn [N.ltb N.eqb N.compare Pos.compare Pos.compare_cont Pos.eqb].
      apply readUInt_write. cbn. lia.
    + cbn [app readVarUInt].
      change (Byte.to_N xff) with 255%N. cbn [N.ltb N.eqb N.compare Pos.compare Pos.compare_cont Pos.eqb].
      apply readUInt_write. cbn. lia.
Qed.

(** Reading back a sequence of encoded values, given that each reads
    back. *)
Lemma readMany_encoded {A} (r : Reader A) (enc : A -> Buffer)
    (l : list A) (rest : Buffer) :
  Forall (fun v => forall rest', r (enc v ++ rest') = Ok (v, rest')) l ->
  readMany r (length l) (concat (map enc l) ++ rest) = Ok (l, rest).
Proof.
  induction 1 as [|v l Hv _ IH]; [reflexivity|].
  cbn [length map concat readMany].
  rewrite <- app_assoc, Hv, IH. reflexivity.
Qed.

(** Every representable field value reads back, and the reader stops
    right after it. *)
Lemma decodeTy_encodeTy (t : Ty) :
  forall (v : val t) (rest : Buffer),
    representable t v = true ->
    decodeTy t (encodeTy t v ++ rest) = Ok (v, rest).
Proof.
  induction t as [| w | | | n | | a IHa b IHb | a IHa];
    intros v rest Hrep; cbn [val representable encodeTy decodeTy] in *.
  - apply readVarUInt_write. now apply N.ltb_lt.
  - apply readUInt_write. now apply N.ltb_lt.
  - apply readUInt_write. apply N.ltb_lt in Hrep. exact Hrep.
  - apply N.ltb_lt in Hrep. rewrite <- app_assoc.
    rewrite readVarUInt_write by assumption.
    rewrite Nat2N.id. now apply readBytes_app.
  - apply Nat.eqb_eq in Hrep. now apply readBytes_app.
  - destruct v. reflexivity.
  - destruct v as [x y]. cbn [fst snd] in *.
    apply andb_true_iff in Hrep as [Hx Hy].
    rewrite <- app_assoc, IHa, IHb by assumption. reflexivity.
  - apply andb_true_iff in Hrep as [Hlen Hall].
    apply N.ltb_lt in Hlen. rewrite <- app_assoc.
    rewrite readVarUInt_write by assumption. rewrite Nat2N.id.
    apply readMany_encoded.
    rewrite forallb_forall in Hall. apply Forall_forall.
    intros x Hx rest'. apply IHa. apply Hall.
    now apply list_elem_of_In.
Qed.

Section WithRegistry.

Variable registry : byte -> option Ty.

(** C2. Every instruction of a registered kind whose fields are
    representable in the layout of its kind has an encoding, and
    decoding that encoding gives the instruction back. *)
Theorem decode_encode (x : Instruction) :
  registered registry x = true ->
  representable (kind x) (fields x) = true ->
  exists bytes,
    encode registry x = Ok bytes /\ decode registry bytes = Ok x.
Proof.
  intros Hreg Hrep. unfold encode. rewrite Hreg.
  eexists. split; [reflexivity|].
  unfold registered in Hreg. apply bool_decide_eq_true in Hreg.
  destruct x as [s t v]. cbn [selector kind fields] in *.
  unfold decode. rewrite Hreg.
  pose proof (decodeTy_encodeTy t v [] Hrep) as Hd.
  rewrite app_nil_r in Hd. rewrite Hd. reflexivity.
Qed.

(** A selector the table does not know is refused, never skipped. *)
Lemma decode_unregistered (s : byte) (body : Buffer) :
  registry s = None ->
  decode registry (s :: body) = Err UnsupportedInstruction.
Proof. intros Hs. unfold decode. now rewrite Hs. Qed.

End WithRegistry.

End CodecFacts.


(* ===================================================================== *)
(** ** The build pipeline *)
(* ===================================================================== *)

Module BuilderFacts.

Import Codec Builder Statements Samples.

Lemma sumOutputs_app (a b : list TxOutput) :
  sumOutputs (a ++ b) = sumOutputs a + sumOutputs b.
Proof.
  induction a as [|o a IH]; cbn; [reflexivity|].
  unfold sumOutputs in IH. rewrite IH. unfold sumOutputs. lia.
Qed.

Lemma sumValues_app (a b : list SpendableOutput) :
  sumValues (a ++ b) = sumValues a + sumValues b.
Proof.
  induction a as [|o a IH]; cbn; [reflexivity|].
  unfold sumValues in IH. rewrite IH. unfold sumValues. lia.
Qed.

Section WithParameters.

Variable registry : byte -> option Ty.
Variable calculateFee : FeeRate -> nat -> nat -> Z.
Variable DUST_THRESHOLD : Z.
Variable ITERATION_CAP : nat.
Variable TX_VERSION : N.
Variable signatureHash : Transaction -> nat -> Buffer -> Z -> Buffer.
Variable sign : Buffer -> Buffer -> option Buffer.

#[local] Abbreviation funding' :=
  (funding registry calculateFee DUST_THRESHOLD ITERATION_CAP).
#[local] Abbreviation build' :=
  (build registry calculateFee DUST_THRESHOLD ITERATION_CAP TX_VERSION
     signatureHash sign).
#[local] Abbreviation run' :=
  (run registry calculateFee DUST_THRESHOLD ITERATION_CAP TX_VERSION
     signatureHash sign).
#[local] Abbreviation trace' :=
  (trace registry calculateFee DUST_THRESHOLD ITERATION_CAP TX_VERSION
     signatureHash sign).

(** *** Step 1 *)

Lemma embedInstruction_supported (req : Request) (log : list Event) :
  supported registry req = true ->
  exists embedded,
    embedInstruction registry req log = (Ok embedded, log)
    /\ fixedOutputs registry req = embedded ++ transfers req.
Proof.
  unfold supported, embedInstruction, fixedOutputs, encode.
  destruct (instruction req) as [x|]; intros Hs.
  - rewrite Hs. eexists. split; reflexivity.
  - eexists. split; reflexivity.
Qed.

Lemma embedInstruction_unsupported (req : Request) (log : list Event) :
  supported registry req = false ->
  embedInstruction registry req log = (Err UnsupportedInstruction, log).
Proof.
  unfold supported, embedInstruction, encode.
  destruct (instruction req) as [x|]; intros Hs; [|discriminate].
  now rewrite Hs.
Qed.

Lemma embedInstruction_log (req : Request) (log : list Event) :
  snd (embedInstruction registry req log) = log.
Proof.
  unfold embedInstruction.
  destruct (instruction req) as [x|]; [|reflexivity].
  destruct (encode registry x); reflexivity.
Qed.

(** *** Step 3 *)

(** A selection that is found covers, and is a prefix of the pool put
    after what was selected before. *)
Lemma select_some (required : Z) (rate : FeeRate) (nOut cap : nat) :
  forall pool selected result,
    select calculateFee required rate nOut cap pool selected = Some result ->
    covers calculateFee required rate nOut result = true
    /\ exists k, (1 <= k <= cap)%nat /\ (k <= length pool)%nat
                 /\ result = selected ++ firstn k pool.
Proof.
  induction cap as [|cap IH]; intros pool selected result; cbn [select];
    [discriminate|].
  destruct pool as [|o rest]; [discriminate|].
  destruct (covers _ _ _ _ (selected ++ [o])) eqn:Hc.
  - intros [= <-]. split; [assumption|].
    exists 1%nat. cbn. repeat split; lia.
  - intros Hsel. apply IH in Hsel as [Hcov (k & Hk & Hlen & ->)].
    split; [assumption|].
    exists (S k). cbn [length firstn]. rewrite <- app_assoc.
    repeat split; lia.
Qed.

(** No prefix of the pool within the cap covers: nothing is selected. *)
Lemma select_none (required : Z) (rate : FeeRate) (nOut cap : nat) :
  forall pool selected,
    (forall k, (1 <= k <= cap)%nat -> (k <= length pool)%nat ->
       covers calculateFee required rate nOut (selected ++ firstn k pool)
       = false) ->
    select calculateFee required rate nOut cap pool selected = None.
Proof.
  induction cap as [|cap IH]; intros pool selected Hnone; cbn [select];
    [reflexivity|].
  destruct pool as [|o rest]; [reflexivity|].
  assert (H1 : covers calculateFee required rate nOut (selected ++ [o])
               = false).
  { apply (Hnone 1%nat); cbn; lia. }
  rewrite H1. apply IH. intros k Hk Hlen.
  rewrite <- app_assoc. apply (Hnone (S k)); cbn; lia.
Qed.

(** *** Step 4 *)

Lemma assemble_balance (rate : FeeRate) (fixedOuts : list TxOutput)
    (change : Script) (selected : list SpendableOutput) :
  let pl := assemble calculateFee DUST_THRESHOLD rate fixedOuts change
              selected in
  spent pl = selected
  /\ sumValues (spent pl) - sumOutputs (outputs pl) = fee pl.
Proof.
  cbv zeta. unfold assemble.
  destruct (_ <? DUST_THRESHOLD); cbn [spent outputs fee].
  - split; [reflexivity|]. lia.
  - split; [reflexivity|]. rewrite sumOutputs_app. cbn. lia.
Qed.

Lemma assemble_head (rate : FeeRate) (o : TxOutput)
    (fixedOuts : list TxOutput) (change : Script)
    (selected : list SpendableOutput) :
  head (outputs (assemble calculateFee DUST_THRESHOLD rate
                   (o :: fixedOuts) change selected)) = Some o.
Proof. unfold assemble. destruct (_ <? DUST_THRESHOLD); reflexivity. Qed.

(** *** Steps 1 to 4 together *)

(** What a funding that succeeds has done. *)
Lemma funding_ok (p : Providers) (req : Request) (log log' : list Event)
    (pl : Plan) :
  funding' p req log = (Ok pl, log') ->
  supported registry req = true
  /\ exists selected,
       pl = assemble calculateFee DUST_THRESHOLD (rateOf p)
              (fixedOutputs registry req) (changeScript req) selected
       /\ select calculateFee
            (requiredFunding registry calculateFee p req) (rateOf p)
            (outputCount registry req) ITERATION_CAP
            (prevoutCollect p
               (requiredFunding registry calculateFee p req)) []
          = Some selected
       /\ log' = log ++ [AskFeeRate;
                         AskPrevouts
                           (requiredFunding registry calculateFee p req)].
Proof.
  unfold funding, bind.
  destruct (supported registry req) eqn:Hs.
  - destruct (embedInstruction_supported req log Hs) as (emb & He & Hf).
    rewrite He. unfold feeRate, fundInputs, bind, emit, ret, fail.
    unfold requiredFunding, outputCount. rewrite Hf.
    destruct (select _ _ _ _ _ _ _) as [selected|]; [|discriminate].
    intros [= <- <-]. split; [reflexivity|].
    exists selected. repeat split. now rewrite <- app_assoc.
  - rewrite (embedInstruction_unsupported req log Hs). discriminate.
Qed.

(** *** Step 6 *)

Lemma signOne_ok (p : Providers) (tx : Transaction) (index : nat)
    (o : SpendableOutput) (log log' : list Event) (w : Witness) :
  signOne signatureHash sign p tx index o log = (Ok w, log') -> w <> [].
Proof.
  unfold signOne, bind, emit, ret, fail.
  destruct (keyFor p o); [|discriminate].
  destruct (sign _ _); [|discriminate].
  intros [= <- _]. discriminate.
Qed.

Lemma signAll_ok (p : Providers) (tx : Transaction)
    (os : list SpendableOutput) :
  forall index log log' ws,
    signAll signatureHash sign p tx index os log = (Ok ws, log') ->
    length ws = length os /\ Forall (fun w => w <> []) ws.
Proof.
  induction os as [|o os IH]; intros index log log' ws; cbn [signAll].
  - unfold ret. intros [= <- _]. split; [reflexivity|constructor].
  - unfold bind at 1.
    destruct (signOne _ _ _ _ _ _ _) as [[w|e] log1] eqn:H1;
      [|discriminate].
    unfold bind at 1.
    destruct (signAll _ _ _ _ _ _ _) as [[ws'|e] log2] eqn:H2;
      [|discriminate].
    unfold ret. intros [= <- _].
    apply IH in H2 as [Hlen Hall]. apply signOne_ok in H1.
    split; [cbn; now rewrite Hlen|now constructor].
Qed.

(** An input whose key cannot be resolved fails the signing as a whole. *)
Lemma signAll_missing_key (p : Providers) (tx : Transaction)
    (os : list SpendableOutput) :
  forall index log,
    Exists (fun o => keyFor p o = None) os ->
    exists e, fst (signAll signatureHash sign p tx index os log) = Err e.
Proof.
  induction os as [|o os IH]; intros index log Hex;
    [inversion Hex|].
  cbn [signAll]. unfold bind at 1.
  destruct (signOne _ _ _ _ _ _ _) as [[w|e] log1] eqn:H1;
    [|eexists; reflexivity].
  inversion Hex as [? ? Hk|? ? Hrest]; subst.
  - unfold signOne, bind, emit, fail in H1. rewrite Hk in H1.
    discriminate.
  - unfold bind at 1.
    destruct (IH (S index) log1 Hrest) as [e He].
    destruct (signAll _ _ _ _ _ _ _) as [[ws|e'] log2];
      [discriminate|eexists; reflexivity].
Qed.

(** The container of step 5 carries no witness. *)
Lemma unsignedTx_unsigned (pl : Plan) :
  fullyUnsigned (unsignedTx TX_VERSION pl).
Proof. constructor. Qed.

(** What a build that succeeds has done. *)
Lemma run_ok (p : Providers) (req : Request) (tx : Transaction) :
  run' p req = Ok tx ->
  exists pl log ws,
    funding' p req [] = (Ok pl, log)
    /\ tx = attach (unsignedTx TX_VERSION pl) ws
    /\ length ws = length (spent pl)
    /\ Forall (fun w => w <> []) ws.
Proof.
  unfold run, build. unfold bind at 1.
  destruct (funding _ _ _ _ p req []) as [[pl|e] log] eqn:Hf;
    [|discriminate].
  unfold bind at 1.
  destruct (signAll _ _ _ _ _ _ _) as [[ws|e] log2] eqn:Hs;
    [|discriminate].
  unfold ret. cbn [fst]. intros [= <-].
  apply signAll_ok in Hs as [Hlen Hall].
  exists pl, log, ws. repeat split; assumption.
Qed.


(** *** The claims about a build *)

(** C1. For every transaction a build returns, the values of the
    outputs it spends minus the values of its outputs is the fee of the
    build, exactly, whatever the fee function, the rate and the number
    of inputs. *)
Theorem fee_balance (p : Providers) (req : Request) (tx : Transaction) :
  run' p req = Ok tx ->
  exists pl log,
    funding' p req [] = (Ok pl, log)
    /\ vin tx = map toInput (spent pl)
    /\ vout tx = outputs pl
    /\ sumValues (spent pl) - sumOutputs (vout tx) = fee pl.
Proof.
  intros Hrun. apply run_ok in Hrun as (pl & log & ws & Hf & -> & _ & _).
  exists pl, log. cbn [attach unsignedTx vin vout].
  repeat split; try assumption.
  apply funding_ok in Hf as (_ & selected & -> & _ & _).
  apply assemble_balance.
Qed.

(** The fee of a build is the fee estimated for its final input count,
    plus the remainder when that was too small to return as change. *)
Lemma funding_fee (p : Providers) (req : Request) (log log' : list Event)
    (pl : Plan) :
  funding' p req log = (Ok pl, log') ->
  let estimated :=
    calculateFee (rateOf p) (length (spent pl))
      (outputCount registry req) in
  (fee pl = estimated
   /\ outputs pl
      = fixedOutputs registry req
        ++ [{| out_value :=
                 sumValues (spent pl)
                 - sumOutputs (fixedOutputs registry req) - estimated;
               out_script := changeScript req |}])
  \/ (fee pl - estimated < DUST_THRESHOLD
      /\ outputs pl = fixedOutputs registry req).
Proof.
  intros Hf. apply funding_ok in Hf as (_ & selected & -> & _ & _).
  cbv zeta. unfold assemble, outputCount.
  destruct (_ <? DUST_THRESHOLD) eqn:Hd; cbn [spent outputs fee].
  - right. apply Z.ltb_lt in Hd. split; [lia|reflexivity].
  - left. split; reflexivity.
Qed.

(** C3. A transaction that a build returns is fully signed: it has one
    witness per input and no witness is empty.  A build that does not
    get that far returns an error and nothing else. *)
Theorem build_fully_signed (p : Providers) (req : Request)
    (tx : Transaction) :
  run' p req = Ok tx ->
  fullySigned tx /\ (fullyUnsigned tx \/ fullySigned tx).
Proof.
  intros Hrun.
  apply run_ok in Hrun as (pl & log & ws & _ & -> & Hlen & Hall).
  assert (Hs : fullySigned (attach (unsignedTx TX_VERSION pl) ws)).
  { split; cbn [attach unsignedTx witness vin]; [|assumption].
    now rewrite length_map. }
  split; [exact Hs|right; exact Hs].
Qed.

(** A selected output without a key fails the build. *)
Lemma run_missing_key (p : Providers) (req : Request) (pl : Plan)
    (log : list Event) :
  funding' p req [] = (Ok pl, log) ->
  Exists (fun o => keyFor p o = None) (spent pl) ->
  exists e, run' p req = Err e.
Proof.
  intros Hf Hex. unfold run, build. unfold bind at 1. rewrite Hf.
  unfold bind at 1.
  destruct (signAll_missing_key p (unsignedTx TX_VERSION pl) (spent pl)
              0%nat log Hex) as [e He].
  destruct (signAll _ _ _ _ _ _ _) as [[ws|e'] log2];
    [discriminate|].
  exists e'. reflexivity.
Qed.

(** C5. When the request is supported and no prefix of the pool within
    the iteration cap covers the required funding plus the fee
    re-estimated for its length (in particular when the pool is
    empty), the build fails with [InsufficientFunds], and it has made
    no call to resolve a key or to sign. *)
Theorem insufficient_funds (p : Providers) (req : Request) :
  supported registry req = true ->
  (forall k, (1 <= k <= ITERATION_CAP)%nat ->
     (k <= length (prevoutCollect p
                     (requiredFunding registry calculateFee p req)))%nat ->
     covers calculateFee (requiredFunding registry calculateFee p req)
       (rateOf p) (outputCount registry req)
       (firstn k (prevoutCollect p
                    (requiredFunding registry calculateFee p req)))
     = false) ->
  run' p req = Err InsufficientFunds
  /\ forallb (fun ev => negb (isSigningEvent ev)) (trace' p req) = true.
Proof.
  intros Hs Hnone.
  assert (Hb : build' p req []
               = (Err InsufficientFunds,
                  [AskFeeRate;
                   AskPrevouts
                     (requiredFunding registry calculateFee p req)])).
  { unfold build, funding. unfold bind.
    destruct (embedInstruction_supported req [] Hs) as (emb & He & Hf).
    rewrite He. unfold feeRate, fundInputs, bind, emit, ret, fail.
    unfold requiredFunding, outputCount in *. rewrite Hf in *.
    rewrite select_none; [reflexivity|].
    intros k Hk Hlen. now apply Hnone. }
  unfold run, trace. rewrite Hb. split; reflexivity.
Qed.

(** C6. In every transaction built from a request that carries an
    instruction, the first output has value zero and its script is the
    data marker [6a] followed by the encoded instruction as a data
    push. *)
Theorem embedded_output_first (p : Providers) (req : Request)
    (x : Instruction) (tx : Transaction) :
  instruction req = Some x ->
  run' p req = Ok tx ->
  exists bytes,
    encode registry x = Ok bytes
    /\ nth_error (vout tx) 0
       = Some {| out_value := 0; out_script := embed bytes |}
    /\ stack (embed bytes) = [OP_RETURN; OP_PUSHDATA bytes little]
    /\ toBuffer (embed bytes)
       = x6a :: getLenOpBuffer (N.of_nat (length bytes)) ++ bytes.
Proof.
  intros Hx Hrun.
  apply run_ok in Hrun as (pl & log & ws & Hf & -> & _ & _).
  apply funding_ok in Hf as (Hs & selected & -> & _ & _).
  unfold supported in Hs. rewrite Hx in Hs.
  unfold fixedOutputs. rewrite Hx. unfold encode. rewrite Hs.
  eexists. split; [reflexivity|].
  cbn [attach unsignedTx vout app]. split.
  - unfold assemble. destruct (_ <? DUST_THRESHOLD); reflexivity.
  - split; [reflexivity|].
    unfold toBuffer. cbn. now rewrite app_nil_r.
Qed.

(** *** The fee rate of a build *)

Lemma signAll_error (p : Providers) (tx : Transaction)
    (os : list SpendableOutput) :
  forall index log log' e,
    signAll signatureHash sign p tx index os log = (Err e, log') ->
    e = SigningFailure.
Proof.
  induction os as [|o os IH]; intros index log log' e; cbn [signAll].
  - discriminate.
  - unfold bind at 1.
    destruct (signOne _ _ _ _ _ _ _) as [[w|e1] log1] eqn:H1.
    + unfold bind at 1.
      destruct (signAll _ _ _ _ _ _ _) as [[ws|e2] log2] eqn:H2;
        [discriminate|].
      intros [= <- _]. now apply IH in H2.
    + intros [= <- _]. unfold signOne, bind, emit, ret, fail in H1.
      destruct (keyFor p o); [|now inversion H1].
      destruct (sign _ _); [discriminate|now inversion H1].
Qed.

(** The two ends of a build: a transaction, or one of the three build
    errors. *)
Lemma run_outcome (p : Providers) (req : Request) :
  match run' p req with
  | Ok tx => fullySigned tx
  | Err e =>
      e = InsufficientFunds \/ e = UnsupportedInstruction
      \/ e = SigningFailure
  end.
Proof.
  destruct (run' p req) as [tx|e] eqn:Hrun.
  - apply run_ok in Hrun as (pl & log & ws & _ & -> & Hlen & Hall).
    split; cbn [attach unsignedTx witness vin]; [|assumption].
    now rewrite length_map.
  - revert Hrun. unfold run, build, funding.
    unfold bind at 1. unfold bind at 1.
    destruct (supported registry req) eqn:Hs.
    + destruct (embedInstruction_supported req [] Hs) as (emb & He & _).
      rewrite He. unfold feeRate, fundInputs, bind at 1 2 3 4, emit, ret, fail.
      destruct (select _ _ _ _ _ _ _) as [selected|];
        [|intros [= <-]; auto].
      unfold bind at 1.
      destruct (signAll _ _ _ _ _ _ _) as [[ws|e'] log2] eqn:H2;
        [discriminate|].
      apply signAll_error in H2. subst e'. intros [= <-]. auto.
    + rewrite (embedInstruction_unsupported req [] Hs). intros [= <-]. auto.
Qed.

Lemma run_never_fee_error (p : Providers) (req : Request) :
  run' p req <> Err FeeEstimationUnavailable.
Proof.
  intros Hrun. pose proof (run_outcome p req) as Ho. rewrite Hrun in Ho.
  destruct Ho as [Ho|[Ho|Ho]]; discriminate Ho.
Qed.

Lemma signAll_withFee (p : Providers) (r : FeeResponse) (tx : Transaction)
    (os : list SpendableOutput) :
  forall index log,
    signAll signatureHash sign (withFee p r) tx index os log
    = signAll signatureHash sign p tx index os log.
Proof.
  induction os as [|o os IH]; intros index log; cbn [signAll];
    [reflexivity|].
  unfold bind at 1 3.
  change (signOne signatureHash sign (withFee p r) tx index o log)
    with (signOne signatureHash sign p tx index o log).
  destruct (signOne _ _ _ _ _ _ _) as [[w|e] log1]; [|reflexivity].
  unfold bind. now rewrite IH.
Qed.

Lemma build_withFee (p : Providers) (r : FeeResponse) (req : Request)
    (log : list Event) :
  rateOf (withFee p r) = rateOf p ->
  build' (withFee p r) req log = build' p req log.
Proof.
  intros Hr.
  assert (Hf : funding' (withFee p r) req log = funding' p req log).
  { unfold funding, feeRate, fundInputs. unfold bind, emit, ret, fail.
    destruct (embedInstruction registry req log) as [[emb|e] log1];
      [|reflexivity].
    cbn [prevoutCollect withFee]. rewrite Hr. reflexivity. }
  unfold build. unfold bind at 1 3. rewrite Hf.
  destruct (funding _ _ _ _ p req log) as [[pl|e] log1]; [|reflexivity].
  unfold bind. now rewrite signAll_withFee.
Qed.

(** C4. On a node response without a fee rate, or with errors, the
    fee-rate provider answers 0.00005000 (5000 minor units per
    kilobyte) instead of failing.  A build whose fee provider reports
    an error or no estimate runs exactly as with that fixed rate, and
    a build never fails with [FeeEstimationUnavailable]. *)
Theorem fee_estimation_fallback (apiClient : Coinbase.ApiClient)
    (p : Providers) (req : Request) :
  feeUnavailable (Coinbase.estimateSmartFee apiClient 1) = true ->
  noRate (feeEstimate p) = true ->
  Coinbase.estimate apiClient = BigNumber.bn 5000 8
  /\ toMinorUnits (BigNumber.bn 5000 8) = Some DEFAULT_FEE_RATE
  /\ rateOf p = DEFAULT_FEE_RATE
  /\ build' p req [] = build' (withFee p (Estimated DEFAULT_FEE_RATE)) req []
  /\ run' p req <> Err FeeEstimationUnavailable.
Proof.
  intros Hu Hn.
  assert (Hr : rateOf p = DEFAULT_FEE_RATE).
  { unfold rateOf. destruct (feeEstimate p); [discriminate Hn| |];
      reflexivity. }
  split; [now apply ProviderFacts.estimate_fallback|].
  split; [reflexivity|]. split; [exact Hr|].
  split; [|apply run_never_fee_error].
  symmetry. apply build_withFee. now rewrite Hr.
Qed.

End WithParameters.

End BuilderFacts.

(* ===================================================================== *)
(** ** The statements on the sample data *)
(* ===================================================================== *)

Module Witnesses.

Import Codec Builder Statements Samples.

Lemma decode_encode_witness :
  registered sampleRegistry sampleVote = true
  /\ exists bytes,
       encode sampleRegistry sampleVote = Ok bytes
       /\ decode sampleRegistry bytes = Ok sampleVote.
Proof.
  split; [reflexivity|].
  apply (CodecFacts.decode_encode sampleRegistry sampleVote); reflexivity.
Defined.

Lemma fee_balance_witness :
  sampleRun richProviders voteRequest = Ok builtVote
  /\ exists pl log,
       funding sampleRegistry flatFee 546 16 richProviders voteRequest []
       = (Ok pl, log)
       /\ vin builtVote = map toInput (spent pl)
       /\ vout builtVote = outputs pl
       /\ sumValues (spent pl) - sumOutputs (vout builtVote) = fee pl.
Proof.
  split; [reflexivity|].
  apply (BuilderFacts.fee_balance sampleRegistry flatFee 546 16 4
           sampleHashOf sampleSign richProviders voteRequest builtVote).
  reflexivity.
Defined.

Lemma build_fully_signed_witness :
  sampleRun richProviders voteRequest = Ok builtVote
  /\ fullySigned builtVote.
Proof.
  split; [reflexivity|].
  apply (BuilderFacts.build_fully_signed sampleRegistry flatFee 546 16 4
           sampleHashOf sampleSign richProviders voteRequest builtVote).
  reflexivity.
Defined.

Lemma fee_estimation_fallback_witness :
  feeUnavailable (Coinbase.estimateSmartFee quietNode 1) = true
  /\ Coinbase.estimate quietNode = BigNumber.bn 5000 8
  /\ sampleRun richProviders voteRequest <> Err FeeEstimationUnavailable.
Proof.
  split; [reflexivity|].
  destruct (BuilderFacts.fee_estimation_fallback sampleRegistry flatFee 546
              16 4 sampleHashOf sampleSign quietNode richProviders
              voteRequest) as (He & _ & _ & _ & Hn);
    [reflexivity|reflexivity|].
  split; [exact He|exact Hn].
Defined.

Lemma insufficient_funds_witness :
  prevoutCollect emptyProviders
    (requiredFunding sampleRegistry flatFee emptyProviders voteRequest) = []
  /\ sampleRun emptyProviders voteRequest = Err InsufficientFunds
  /\ forallb (fun ev => negb (isSigningEvent ev))
       (trace sampleRegistry flatFee 546 16 4 sampleHashOf sampleSign
          emptyProviders voteRequest) = true.
Proof.
  split; [reflexivity|].
  apply (BuilderFacts.insufficient_funds sampleRegistry flatFee 546 16 4
           sampleHashOf sampleSign emptyProviders voteRequest).
  - reflexivity.
  - intros k Hk Hlen. cbn in Hlen. lia.
Defined.

Lemma embedded_output_first_witness :
  sampleRun richProviders voteRequest = Ok builtVote
  /\ exists bytes,
       encode sampleRegistry sampleVote = Ok bytes
       /\ nth_error (vout builtVote) 0
          = Some {| out_value := 0; out_script := embed bytes |}
       /\ stack (embed bytes) = [OP_RETURN; OP_PUSHDATA bytes little]
       /\ toBuffer (embed bytes)
          = x6a :: getLenOpBuffer (N.of_nat (length bytes)) ++ bytes.
Proof.
  split; [reflexivity|].
  apply (BuilderFacts.embedded_output_first sampleRegistry flatFee 546 16 4
           sampleHashOf sampleSign richProviders voteRequest sampleVote
           builtVote); reflexivity.
Defined.

End Witnesses.

(* ===================================================================== *)
(** ** Worked examples *)
(* ===================================================================== *)

Module Examples.

Import Codec Builder Statements Samples.

(** The variable-length integer at its thresholds. *)
Example varuint_252 : writeVarUInt 252 = [xfc].
Proof. reflexivity. Qed.

Example varuint_253 : writeVarUInt 253 = [xfd; xfd; x00].
Proof. reflexivity. Qed.

Example varuint_65536 : writeVarUInt 65536 = [xfe; x00; x00; x01; x00].
Proof. reflexivity. Qed.

Example varuint_2_32 :
  writeVarUInt 4294967296
  = [xff; x00; x00; x00; x00; x01; x00; x00; x00].
Proof. reflexivity. Qed.

(** A truncated vote is refused. *)
Example decode_truncated :
  decode sampleRegistry [x4f; x01; x11] = Err MalformedInstruction.
Proof. reflexivity. Qed.

Example decode_unknown_selector :
  decode sampleRegistry [x50; x01] = Err Codec.UnsupportedInstruction.
Proof. reflexivity. Qed.

(** One output of 10.00000000, a zero-transfer instruction and a fee of
    0.00050000: one input, the embedded output and a change output of
    9.99950000. *)
Example vote_from_ten_coins :
  length (vin builtVote) = 1%nat
  /\ map out_value (vout builtVote) = [0; 999950000].
Proof. split; reflexivity. Qed.

(** Two outputs of 0.00060000: the first alone does not cover, both do;
    with a cap of one iteration the build gives up. *)
Example two_inputs_needed :
  match run sampleRegistry flatFee 546 16 4 sampleHashOf sampleSign
          smallProviders voteRequest with
  | Ok tx => length (vin tx) = 2%nat /\ length (witness tx) = 2%nat
  | Err _ => False
  end.
Proof. vm_compute. split; reflexivity. Qed.

Example cap_reached :
  run sampleRegistry flatFee 546 1 4 sampleHashOf sampleSign
    smallProviders voteRequest = Err InsufficientFunds.
Proof. reflexivity. Qed.

(** A remainder under the dust threshold is not returned as change. *)
Example dust_goes_to_fee :
  let pl := assemble flatFee 546 1000 [] ownerScript [smallCoin 0] in
  outputs (assemble flatFee 60000 1000 [] ownerScript [smallCoin 0]) = []
  /\ fee (assemble flatFee 60000 1000 [] ownerScript [smallCoin 0]) = 60000
  /\ map out_value (outputs pl) = [10000] /\ fee pl = 50000.
Proof. repeat split; reflexivity. Qed.

(** An instruction of a kind the table does not know fails the build at
    its first step. *)
Example unsupported_instruction :
  run (fun _ => None) flatFee 546 16 4 sampleHashOf sampleSign
    richProviders voteRequest = Err Builder.UnsupportedInstruction.
Proof. reflexivity. Qed.

(** The environment of the playground. *)
Example network_unknown (Jn : string -> option Q) (Jb : string -> option bool) :
  Config.validate Jn Jb {[ "API_NETWORK" := "devnet" ]} = Err ["API_NETWORK"].
Proof. reflexivity. Qed.

Example version_pattern :
  map Config.versionPattern ["v1"; "v1.0"; "v10.25"; "v"; "1.0"; "v1."; "v1.0.0"]
  = [true; true; true; false; false; false; false].
Proof. reflexivity. Qed.

End Examples.

(* ===================================================================== *)
(** ** The provider bundle *)
(* ===================================================================== *)

Module BundleFacts.

Import Coinbase Bundle Shapes Samples MoreSamples.

Section WithCrypto.

Variable HASH160 : Buffer -> Buffer.
Variable Bech32_fromPubKey : Buffer -> string -> string.

(** X1. [collect] gives, at the position of every unspent output the node
    lists, the prevout of that output: same txid, vout, amount and token,
    and the locking script of the pair.  It gives as many prevouts as the
    node lists outputs. *)
Theorem collect_entry (apiClient : ApiClient) (pair : EllipticPair)
    (minBalance : BigNumber.t) (i : nat) (utxo : UTXO) :
  listUnspent apiClient 1 9999999
    [Bech32_fromPubKey (publicKey pair) "bcrt"] !! i = Some utxo ->
  length (collect HASH160 Bech32_fromPubKey apiClient pair minBalance)
  = length (listUnspent apiClient 1 9999999
              [Bech32_fromPubKey (publicKey pair) "bcrt"])
  /\ exists p,
       collect HASH160 Bech32_fromPubKey apiClient pair minBalance !! i
       = Some p
       /\ txid p = utxo_txid utxo /\ vout p = utxo_vout utxo
       /\ value p = utxo_amount utxo /\ tokenId p = utxo_tokenId utxo
       /\ script p = pairScript HASH160 pair.
Proof.
  intros Hi. unfold collect. cbv zeta. split; [now rewrite length_map|].
  exists (mapPrevout HASH160 utxo (publicKey pair)).
  split; [|repeat split].
  rewrite list_lookup_fmap, Hi. reflexivity.
Qed.

(** X2. Whatever the node lists, every prevout that [collect] returns is
    locked by the script that the elliptic-pair provider of the same pair
    gives. *)
Theorem collect_scripts (apiClient : ApiClient) (pair : EllipticPair)
    (minBalance : BigNumber.t) :
  Forall (fun p => script p = pairScript HASH160 pair)
    (collect HASH160 Bech32_fromPubKey apiClient pair minBalance).
Proof.
  unfold collect. cbv zeta. apply Forall_forall. intros p Hp.
  apply list_elem_of_fmap in Hp as (utxo & -> & _). reflexivity.
Qed.

(** A new bundle is consistent, and [setEllipticPair] makes any bundle
    consistent with the pair it is given; it changes neither the client
    the prevout provider asks nor the fee estimate. *)
Lemma setEllipticPair_consistent (keyPair pair : EllipticPair)
    (client : ApiClient) (this : CoinbaseProviders) :
  consistent (newCoinbaseProviders keyPair client)
  /\ consistent (setEllipticPair this pair)
  /\ ellipticPair (setEllipticPair this pair) = pair
  /\ prevout_apiClient (prevout (setEllipticPair this pair))
     = prevout_apiClient (prevout this)
  /\ feeEstimate (setEllipticPair this pair) = feeEstimate this.
Proof. repeat split. Qed.

(** X3. In a consistent bundle, the key that the elliptic-pair provider
    resolves for a collected prevout is the pair of the bundle, and the
    script of the prevout is the script of that provider: what is
    collected can be signed for. *)
Theorem bundle_prevouts_signable (this : CoinbaseProviders)
    (minBalance : BigNumber.t) :
  consistent this ->
  Forall (fun p =>
            ellipticGet this p = ellipticPair this
            /\ script p = ellipticScript HASH160 this
            /\ script p = pairScript HASH160 (ellipticGet this p))
    (prevoutCollect HASH160 Bech32_fromPubKey this minBalance).
Proof.
  intros [He Hp]. unfold prevoutCollect, ellipticScript, ellipticGet, get.
  rewrite He, Hp. unfold collect. cbv zeta.
  apply Forall_forall. intros p Hin.
  apply list_elem_of_fmap in Hin as (utxo & -> & _). repeat split.
Qed.

(** X4. On a response that has a fee rate and whose errors are absent or
    an empty list, the fee-rate provider answers that rate. *)
Theorem estimate_reported (apiClient : ApiClient) (rate : BigNumber.t) :
  feerate (estimateSmartFee apiClient 1) = Some rate ->
  errors (estimateSmartFee apiClient 1) = None
  \/ errors (estimateSmartFee apiClient 1) = Some [] ->
  estimate apiClient = rate.
Proof.
  intros Hr He. unfold estimate. cbv zeta. rewrite Hr.
  destruct He as [-> | ->]; reflexivity.
Qed.

End WithCrypto.

Lemma collect_entry_witness :
  exists p,
    collect (fun b => b) sampleBech32 busyNode samplePair (BigNumber.ofZ 5)
      !! 1%nat = Some p
    /\ value p = BigNumber.bn 99 2.
Proof.
  destruct (collect_entry (fun b => b) sampleBech32 busyNode samplePair
              (BigNumber.ofZ 5) 1 sampleUtxo) as (_ & p & Hp & _ & _ & Hv & _);
    [reflexivity|].
  exists p. split; [exact Hp|exact Hv].
Defined.

Lemma bundle_prevouts_signable_witness :
  Forall (fun p => ellipticGet (setEllipticPair
                                  (newCoinbaseProviders samplePair busyNode)
                                  otherPair) p = otherPair)
    (prevoutCollect (fun b => b) sampleBech32
       (setEllipticPair (newCoinbaseProviders samplePair busyNode) otherPair)
       (BigNumber.ofZ 1)).
Proof.
  eapply Forall_impl;
    [apply (bundle_prevouts_signable (fun b => b) sampleBech32
              (setEllipticPair (newCoinbaseProviders samplePair busyNode)
                 otherPair) (BigNumber.ofZ 1)); split; reflexivity|].
  intros p (Hg & _ & _). exact Hg.
Defined.

Lemma estimate_reported_witness :
  estimate busyNode = BigNumber.bn 2 4.
Proof.
  apply (estimate_reported busyNode (BigNumber.bn 2 4));
    [reflexivity|right; reflexivity].
Defined.

End BundleFacts.

(* ===================================================================== *)
(** ** The simulated oracle feeds *)
(* ===================================================================== *)

Module FeedsFacts.

Import Feeds Shapes MoreSamples.

Lemma lt_spec (a b : BigNumber.t) : lt a b = true <-> (a < b)%Q.
Proof.
  unfold lt. rewrite negb_true_iff. split.
  - intros Hle. apply Qnot_le_lt. intros Hba.
    apply Qle_bool_iff in Hba. congruence.
  - intros Hlt. destruct (Qle_bool b a) eqn:Hle; [|reflexivity].
    apply Qle_bool_iff in Hle. apply Qlt_not_le in Hlt. contradiction.
Qed.

Lemma lt_false (a b : BigNumber.t) : lt a b = false <-> (b <= a)%Q.
Proof.
  unfold lt. rewrite negb_false_iff. apply Qle_bool_iff.
Qed.

Lemma plus_value (a b : BigNumber.t) : (BigNumber.plus a b == a + b)%Q.
Proof. apply Qred_correct. Qed.

Lemma minus_value (a b : BigNumber.t) : (BigNumber.minus a b == a - b)%Q.
Proof. apply Qred_correct. Qed.

Lemma times_value (a b : BigNumber.t) : (times a b == a * b)%Q.
Proof. apply Qred_correct. Qed.

(** X5. Going up by an absolute change and then down by the same change
    gives the price back, and so does down then up: nothing is lost to
    rounding. *)
Theorem absolute_round_trip (r1 r2 : Q) (price priceChange : BigNumber.t) :
  (PriceDirectionFunctions DOWN_ABSOLUTE r2
     (PriceDirectionFunctions UP_ABSOLUTE r1 price priceChange) priceChange
   == price)%Q
  /\ (PriceDirectionFunctions UP_ABSOLUTE r2
        (PriceDirectionFunctions DOWN_ABSOLUTE r1 price priceChange)
        priceChange
      == price)%Q.
Proof.
  cbn [PriceDirectionFunctions]. split.
  - rewrite minus_value, plus_value. ring.
  - rewrite plus_value, minus_value. ring.
Qed.

(** X6. A price under 1 goes up under [RANDOM], whatever the draw. *)
Theorem random_under_one_goes_up (random : Q) (price priceChange : BigNumber.t) :
  (price < 1)%Q ->
  (PriceDirectionFunctions RANDOM random price priceChange
   == price + price * priceChange)%Q.
Proof.
  intros Hlt. cbn [PriceDirectionFunctions]. cbv zeta.
  assert (Hl : lt price (BigNumber.ofZ 1) = true) by now apply lt_spec.
  rewrite Hl, orb_true_r, plus_value, times_value. reflexivity.
Qed.

(** X7. With a change between 0 and 1, [RANDOM] never takes a price that
    is at least [1 - change] below [1 - change]. *)
Theorem random_floor (random : Q) (price priceChange : BigNumber.t) :
  (0 <= priceChange)%Q -> (priceChange <= 1)%Q ->
  (1 - priceChange <= price)%Q ->
  (1 - priceChange
   <= PriceDirectionFunctions RANDOM random price priceChange)%Q.
Proof.
  intros H0 H1 Hp. cbn [PriceDirectionFunctions]. cbv zeta.
  destruct (lt (1 # 2) random || lt price (BigNumber.ofZ 1)) eqn:Hc.
  - rewrite plus_value, times_value. nra.
  - apply orb_false_iff in Hc as [_ Hge]. apply lt_false in Hge.
    change (BigNumber.ofZ 1) with 1%Q in Hge.
    rewrite minus_value, times_value. nra.
Qed.

(** X8. With a price and a change that are not negative, [UP_PERCENTAGE]
    never lowers the price. *)
Theorem up_percentage_rises (r : Q) (price priceChange : BigNumber.t) :
  (0 <= price)%Q -> (0 <= priceChange)%Q ->
  (price <= PriceDirectionFunctions UP_PERCENTAGE r price priceChange)%Q.
Proof.
  intros Hp Hc. cbn [PriceDirectionFunctions].
  rewrite plus_value, times_value. nra.
Qed.

(** X9. With a price that is not negative and a change between 0 and 1,
    [DOWN_PERCENTAGE] never raises the price and never makes it
    negative. *)
Theorem down_percentage_falls (r : Q) (price priceChange : BigNumber.t) :
  (0 <= price)%Q -> (0 <= priceChange)%Q -> (priceChange <= 1)%Q ->
  (0 <= PriceDirectionFunctions DOWN_PERCENTAGE r price priceChange)%Q
  /\ (PriceDirectionFunctions DOWN_PERCENTAGE r price priceChange
      <= price)%Q.
Proof.
  intros Hp Hc H1. cbn [PriceDirectionFunctions].
  rewrite minus_value, times_value. split; nra.
Qed.

Lemma randomFeeds_directions (a : list SimulatedOracleFeed) :
  forall b, map direction a = map direction b -> randomFeeds a = randomFeeds b.
Proof.
  unfold randomFeeds.
  induction a as [|x a IH]; intros [|y b] Hd; try discriminate;
    [reflexivity|].
  cbn [map] in Hd. injection Hd as Hxy Hab. cbn [List.filter].
  rewrite Hxy. destruct (direction y); cbn [length];
    rewrite ?(IH b Hab); reflexivity.
Qed.

Section WithRounds.

Variable random : nat -> Q.
Variable now : nat -> Z.

(** One remap keeps the feeds in place, with their token, change and
    direction, and takes one draw per feed of direction [RANDOM]. *)
Lemma remap_shape (feeds : list SimulatedOracleFeed) :
  forall drawn,
    map token (fst (remap random drawn feeds)) = map token feeds
    /\ map change (fst (remap random drawn feeds)) = map change feeds
    /\ map direction (fst (remap random drawn feeds)) = map direction feeds
    /\ snd (remap random drawn feeds) = (drawn + randomFeeds feeds)%nat.
Proof.
  induction feeds as [|v feeds IH]; intros drawn.
  - cbn. repeat split. lia.
  - cbn [remap]. cbv zeta.
    match goal with
    | |- context [remap random ?d feeds] =>
        specialize (IH d); destruct (remap random d feeds) as [rest' d'']
    end.
    cbn [fst snd map token change direction] in *.
    destruct IH as (Ht & Hc & Hd & Hn).
    rewrite Ht, Hc, Hd, Hn. repeat split.
    unfold randomFeeds. cbn [List.filter].
    destruct (direction v); cbn [length]; lia.
Qed.

(** One remap moves the feed at each position by its own direction. *)
Lemma remap_lookup (feeds : list SimulatedOracleFeed) :
  forall drawn i v,
    feeds !! i = Some v ->
    exists draw,
      fst (remap random drawn feeds) !! i
      = Some {| token := token v;
                amount := PriceDirectionFunctions (direction v) draw
                            (amount v) (change v);
                change := change v;
                direction := direction v |}.
Proof.
  induction feeds as [|w feeds IH]; intros drawn i v Hi; [discriminate|].
  cbn [remap]. cbv zeta.
  match goal with
  | |- context [remap random ?d feeds] =>
      pose proof (IH d) as IHd; destruct (remap random d feeds) as [rest' d'']
  end.
  cbn [fst] in *. destruct i as [|i].
  - injection Hi as ->. eexists. reflexivity.
  - cbn in Hi. apply IHd in Hi. exact Hi.
Qed.

Lemma remap_stable (feeds : list SimulatedOracleFeed) (drawn i : nat)
    (v : SimulatedOracleFeed) :
  feeds !! i = Some v -> direction v = STABLE ->
  fst (remap random drawn feeds) !! i = Some v.
Proof.
  intros Hi Hs. destruct (remap_lookup feeds drawn i v Hi) as [draw Hd].
  rewrite Hd. destruct v as [t a c d]. cbn in *. subst d. reflexivity.
Qed.

Lemma oracleTokens_wellPriced (feeds : list SimulatedOracleFeed) :
  Forall wellPriced (oracleTokens feeds).
Proof.
  unfold oracleTokens. apply List.Forall_forall. intros tp Hin.
  apply in_map_iff in Hin as (v & <- & Hv).
  apply filter_In in Hv as [_ Hpub].
  unfold publishable in Hpub. apply andb_true_iff in Hpub as [Hgt Hlt].
  unfold gt in Hgt. apply lt_spec in Hgt. apply lt_spec in Hlt.
  exists (amount v). cbn [prices]. repeat split; assumption.
Qed.

(** X10. [setupOracleData] makes one payload per oracle id, in the order
    of the ids; the first payload carries the feeds as they were, and the
    timestamps are the clock readings of the rounds. *)
Theorem setupOracleData_payloads (oracleIds : list string) :
  forall round drawn feeds,
    map oracleId (fst (setupOracleData random now round drawn oracleIds feeds))
    = oracleIds
    /\ map timestamp
         (fst (setupOracleData random now round drawn oracleIds feeds))
       = map (fun k => BigNumber.ofZ (now (round + k)%nat))
           (seq 0 (length oracleIds))
    /\ head (map tokens
               (fst (setupOracleData random now round drawn oracleIds feeds)))
       = head (map (fun _ => oracleTokens feeds) oracleIds).
Proof.
  induction oracleIds as [|id ids IH]; intros round drawn feeds;
    [repeat split|].
  cbn [setupOracleData]. cbv zeta.
  destruct (remap random drawn feeds) as [feeds' drawn'].
  specialize (IH (S round) drawn' feeds').
  destruct (setupOracleData random now (S round) drawn' ids feeds')
    as [sent final].
  cbn [fst map oracleId timestamp tokens length seq head] in *.
  destruct IH as (Hid & Hts & _). rewrite Hid, Hts.
  repeat split. f_equal; [now rewrite Nat.add_0_r|].
  rewrite <- seq_shift, map_map. apply map_ext. intros k.
  now rewrite Nat.add_succ_r.
Qed.

(** X11. Every token price in every payload of [setupOracleData] is a
    single price in USD, strictly between 0.00000001 and 1200000000:
    feeds outside these bounds are never published. *)
Theorem setupOracleData_prices (oracleIds : list string) :
  forall round drawn feeds,
    Forall (fun data => Forall wellPriced (tokens data))
      (fst (setupOracleData random now round drawn oracleIds feeds)).
Proof.
  induction oracleIds as [|id ids IH]; intros round drawn feeds;
    [constructor|].
  cbn [setupOracleData]. cbv zeta.
  destruct (remap random drawn feeds) as [feeds' drawn'].
  specialize (IH (S round) drawn' feeds').
  destruct (setupOracleData random now (S round) drawn' ids feeds')
    as [sent final].
  cbn [fst] in *. constructor; [|assumption].
  cbn [tokens]. apply oracleTokens_wellPriced.
Qed.

(** X12. [setupOracleData] leaves the feeds in place, each with its token,
    change and direction, and takes one draw per round for each feed of
    direction [RANDOM]. *)
Theorem setupOracleData_feeds (oracleIds : list string) :
  forall round drawn feeds,
    let final := snd (setupOracleData random now round drawn oracleIds feeds) in
    map token (fst final) = map token feeds
    /\ map change (fst final) = map change feeds
    /\ map direction (fst final) = map direction feeds
    /\ snd final = (drawn + length oracleIds * randomFeeds feeds)%nat.
Proof.
  induction oracleIds as [|id ids IH]; intros round drawn feeds; cbv zeta.
  - cbn. repeat split. lia.
  - cbn [setupOracleData]. cbv zeta.
    pose proof (remap_shape feeds drawn) as (Ht & Hc & Hd & Hn).
    destruct (remap random drawn feeds) as [feeds' drawn'].
    specialize (IH (S round) drawn' feeds'). cbv zeta in IH.
    destruct (setupOracleData random now (S round) drawn' ids feeds')
      as [sent final].
    cbn [fst snd] in *. destruct IH as (Ht' & Hc' & Hd' & Hn').
    rewrite Ht', Hc', Hd', Hn', Ht, Hc, Hd, Hn. repeat split.
    assert (Hr : randomFeeds feeds' = randomFeeds feeds)
      by now apply randomFeeds_directions.
    rewrite Hr. cbn [length]. lia.
Qed.

(** X13. A feed of direction [STABLE] is, after all the rounds of
    [setupOracleData], where and what it was. *)
Theorem setupOracleData_stable (oracleIds : list string) :
  forall round drawn feeds i v,
    feeds !! i = Some v -> direction v = STABLE ->
    fst (snd (setupOracleData random now round drawn oracleIds feeds)) !! i
    = Some v.
Proof.
  induction oracleIds as [|id ids IH]; intros round drawn feeds i v Hi Hs;
    [exact Hi|].
  cbn [setupOracleData]. cbv zeta.
  pose proof (remap_stable feeds drawn i v Hi Hs) as Hr.
  destruct (remap random drawn feeds) as [feeds' drawn'].
  specialize (IH (S round) drawn' feeds' i v Hr Hs).
  destruct (setupOracleData random now (S round) drawn' ids feeds')
    as [sent final].
  exact IH.
Qed.

End WithRounds.

Lemma random_under_one_goes_up_witness :
  (PriceDirectionFunctions RANDOM (1 # 4) (amount pennyFeed)
     (change pennyFeed) == 133 # 200)%Q.
Proof.
  rewrite (random_under_one_goes_up (1 # 4) (amount pennyFeed)
             (change pennyFeed)); reflexivity.
Defined.

Lemma random_floor_witness :
  (1 - change pennyFeed
   <= PriceDirectionFunctions RANDOM (1 # 4) (BigNumber.ofZ 1)
        (change pennyFeed))%Q.
Proof.
  apply (random_floor (1 # 4) (BigNumber.ofZ 1) (change pennyFeed));
    discriminate.
Defined.

Lemma up_percentage_rises_witness :
  (amount upFeed
   <= PriceDirectionFunctions UP_PERCENTAGE 0 (amount upFeed)
        (change upFeed))%Q.
Proof.
  apply (up_percentage_rises 0 (amount upFeed) (change upFeed)); discriminate.
Defined.

Lemma down_percentage_falls_witness :
  (PriceDirectionFunctions DOWN_PERCENTAGE 0 (amount downFeed)
     (change downFeed) <= amount downFeed)%Q.
Proof.
  apply (down_percentage_falls 0 (amount downFeed) (change downFeed));
    discriminate.
Defined.

Lemma setupOracleData_stable_witness :
  fst (snd (setupOracleData halves epoch 0 0 ["o1"; "o2"; "o3"] initialFeeds))
    !! 8%nat = Some stableFeed.
Proof.
  apply (setupOracleData_stable halves epoch ["o1"; "o2"; "o3"] 0 0
           initialFeeds 8 stableFeed); reflexivity.
Defined.

End FeedsFacts.

(* ===================================================================== *)
(** ** Funding and waiting *)
(* ===================================================================== *)

Module BotFacts.

Import Coinbase Bot Shapes Samples MoreSamples.

Section WithNode.

Variable Node : Type.
Variable Amount : Type.
Variable sendToAddress : Node -> string -> Amount -> Node.
Variable generatetoaddress : Node -> Z -> string -> Z -> Node.
Variable clientAt : Node -> ApiClient.
Variable getBalance : Node -> BigNumber.t.
Variable Bech32_fromPubKey : Buffer -> string -> string.
Variable OWNER_ADDR : string.
Variable ellipticPair : EllipticPair.

#[local] Abbreviation fund' :=
  (fund Node Amount sendToAddress generatetoaddress clientAt
     Bech32_fromPubKey OWNER_ADDR ellipticPair).
#[local] Abbreviation round' :=
  (fundRound Node Amount sendToAddress generatetoaddress OWNER_ADDR).
#[local] Abbreviation unspent' :=
  (unspentAt Node clientAt Bech32_fromPubKey ellipticPair).
#[local] Abbreviation mine' :=
  (generateToAddress Node generatetoaddress OWNER_ADDR).
#[local] Abbreviation wait' :=
  (waitForBalance Node generatetoaddress getBalance OWNER_ADDR).

Lemma length_zero_nil {A} (l : list A) : (length l =? 0)%nat = true <-> l = [].
Proof.
  rewrite Nat.eqb_eq. split; [apply length_zero_iff_nil|now intros ->].
Qed.

(** X14. When [fund] returns, the node lists at least one unspent output
    for the providers' address, so that [collect] on that node is not
    empty; the node is the one reached after some rounds of sending and
    mining, at least one and no more than the fuel. *)
Theorem fund_leaves_unspent (HASH160 : Buffer -> Buffer)
    (minBalance : BigNumber.t) (fuel : nat) :
  forall (node node' : Node) (amount : Amount) (method : option string),
    fund Node Amount sendToAddress generatetoaddress clientAt
      Bech32_fromPubKey OWNER_ADDR ellipticPair fuel node amount method
    = Some node' ->
    unspent' node' <> []
    /\ collect HASH160 Bech32_fromPubKey (clientAt node') ellipticPair
         minBalance <> []
    /\ exists k, (1 <= k <= fuel)%nat
                 /\ node' = Nat.iter k (round' amount) node.
Proof.
  induction fuel as [|fuel IH]; intros node node' amount method;
    cbn [fund]; [discriminate|]. cbv zeta.
  destruct (length _ =? 0)%nat eqn:Hlen.
  - intros Hf. apply IH in Hf as (Hu & Hc & k & Hk & ->).
    split; [exact Hu|]. split; [exact Hc|].
    exists (S k). split; [lia|]. now rewrite Nat.iter_succ_r.
  - intros [= <-].
    assert (Hu : unspent' (round' amount node) <> []).
    { intros Hnil. apply length_zero_nil in Hnil.
      unfold unspentAt, fundRound in Hnil. congruence. }
    split; [exact Hu|]. split.
    + unfold collect. cbv zeta. intros Hnil.
      apply fmap_nil_inv in Hnil. exact (Hu Hnil).
    + exists 1%nat. split; [lia|reflexivity].
Qed.

(** X15. If the node lists nothing after each of the first [k - 1] rounds
    and something after the [k]-th, [fund] with at least [k] rounds of
    fuel returns the node after exactly [k] rounds, whatever the method
    argument. *)
Theorem fund_returns (fuel : nat) :
  forall (k : nat) (node : Node) (amount : Amount) (method : option string),
    (1 <= k)%nat -> (k <= fuel)%nat ->
    (forall j, (1 <= j < k)%nat ->
       unspent' (Nat.iter j (round' amount) node) = []) ->
    unspent' (Nat.iter k (round' amount) node) <> [] ->
    fund Node Amount sendToAddress generatetoaddress clientAt
      Bech32_fromPubKey OWNER_ADDR ellipticPair fuel node amount method
    = Some (Nat.iter k (round' amount) node).
Proof.
  induction fuel as [|fuel IH]; intros k node amount method Hk1 Hkf Hempty Hk;
    [lia|].
  cbn [fund]. cbv zeta.
  change (listUnspent _ 1 9999999 _) with (unspent' (round' amount node)).
  destruct (Nat.eq_dec k 1%nat) as [-> | Hne].
  - cbn [Nat.iter] in Hk.
    destruct (length _ =? 0)%nat eqn:Hlen; [|reflexivity].
    apply length_zero_nil in Hlen. contradiction.
  - assert (Hfirst : unspent' (round' amount node) = []).
    { apply (Hempty 1%nat). lia. }
    rewrite Hfirst. cbn [length Nat.eqb].
    destruct k as [|k]; [lia|]. rewrite Nat.iter_succ_r.
    apply IH; [lia|lia| |].
    + intros j Hj. rewrite <- Nat.iter_succ_r. apply Hempty. lia.
    + now rewrite <- Nat.iter_succ_r.
Qed.

(** X16. When [waitForBalance] returns, the balance of the node is not
    under the target; the node is the one reached by mining some blocks,
    no more than the fuel, and before each of them the balance was under
    the target. *)
Theorem waitForBalance_reaches (fuel : nat) :
  forall (node node' : Node) (balance : BigNumber.t),
    waitForBalance Node generatetoaddress getBalance OWNER_ADDR fuel node balance
    = Some node' ->
    (balance <= getBalance node')%Q
    /\ exists k, (k <= fuel)%nat
                 /\ node' = Nat.iter k mine' node
                 /\ forall j, (j < k)%nat ->
                      (getBalance (Nat.iter j mine' node) < balance)%Q.
Proof.
  induction fuel as [|fuel IH]; intros node node' balance; cbn [waitForBalance];
    cbv zeta; destruct (Feeds.lt (getBalance node) balance) eqn:Hlt;
    try discriminate.
  - intros [= <-]. apply FeedsFacts.lt_false in Hlt.
    split; [exact Hlt|]. exists 0%nat. repeat split; [lia|]. intros j Hj. lia.
  - intros Hw. apply IH in Hw as (Hb & k & Hk & -> & Hunder).
    split; [exact Hb|]. exists (S k). split; [lia|].
    split; [now rewrite Nat.iter_succ_r|].
    intros [|j] Hj.
    + cbn. now apply FeedsFacts.lt_spec.
    + rewrite Nat.iter_succ_r. apply Hunder. lia.
  - intros [= <-]. apply FeedsFacts.lt_false in Hlt.
    split; [exact Hlt|]. exists 0%nat. repeat split; [lia|]. intros j Hj. lia.
Qed.

(** X17. If the balance is under the target before each of the first [k]
    blocks and not under it after them, [waitForBalance] with fuel for
    [k] blocks returns the node after exactly [k] blocks; with a balance
    that is already enough ([k = 0]) it mines nothing. *)
Theorem waitForBalance_returns (fuel : nat) :
  forall (k : nat) (node : Node) (balance : BigNumber.t),
    (k <= fuel)%nat ->
    (forall j, (j < k)%nat ->
       (getBalance (Nat.iter j mine' node) < balance)%Q) ->
    (balance <= getBalance (Nat.iter k mine' node))%Q ->
    waitForBalance Node generatetoaddress getBalance OWNER_ADDR fuel node balance
    = Some (Nat.iter k mine' node).
Proof.
  induction fuel as [|fuel IH]; intros k node balance Hk Hunder Hreach.
  - assert (k = 0)%nat as -> by lia. cbn [waitForBalance].
    change (Nat.iter 0 mine' node) with node in *.
    cbv zeta. apply FeedsFacts.lt_false in Hreach. now rewrite Hreach.
  - cbn [waitForBalance]. cbv zeta. destruct k as [|k].
    + change (Nat.iter 0 mine' node) with node in *.
      apply FeedsFacts.lt_false in Hreach. now rewrite Hreach.
    + assert (H0 : Feeds.lt (getBalance node) balance = true).
      { apply FeedsFacts.lt_spec. apply (Hunder 0%nat). lia. }
      rewrite H0, Nat.iter_succ_r. apply IH; [lia| |].
      * intros j Hj. rewrite <- Nat.iter_succ_r. apply Hunder. lia.
      * now rewrite <- Nat.iter_succ_r.
Qed.

End WithNode.

Lemma fund_leaves_unspent_witness :
  fund nat Z sampleSend sampleGenerate sampleClientAt sampleBech32 "owner"
    samplePair 5 0%nat 11 None = Some 2%nat
  /\ unspentAt nat sampleClientAt sampleBech32 samplePair 2%nat <> [].
Proof.
  split; [reflexivity|].
  apply (fund_leaves_unspent nat Z sampleSend sampleGenerate sampleClientAt
           sampleBech32 "owner" samplePair (fun b => b) (BigNumber.ofZ 1) 5
           0%nat 2%nat 11 None).
  reflexivity.
Defined.

Lemma fund_returns_witness :
  fund nat Z sampleSend sampleGenerate sampleClientAt sampleBech32 "owner"
    samplePair 5 0%nat 11 (Some "dex") = Some 2%nat.
Proof.
  apply (fund_returns nat Z sampleSend sampleGenerate sampleClientAt
           sampleBech32 "owner" samplePair 5 2 0%nat 11 (Some "dex")).
  - lia.
  - lia.
  - intros j Hj. assert (j = 1)%nat as -> by lia. reflexivity.
  - discriminate.
Defined.

Lemma waitForBalance_reaches_witness :
  waitForBalance nat sampleGenerate sampleBalance "owner" 9 0%nat
    (BigNumber.ofZ 120) = Some 3%nat
  /\ (BigNumber.ofZ 120 <= sampleBalance 3)%Q.
Proof.
  split; [reflexivity|].
  apply (waitForBalance_reaches nat sampleGenerate sampleBalance "owner" 9
           0%nat 3%nat (BigNumber.ofZ 120)).
  reflexivity.
Defined.

Lemma waitForBalance_returns_witness :
  waitForBalance nat sampleGenerate sampleBalance "owner" 0 3%nat
    (BigNumber.ofZ 120) = Some 3%nat.
Proof.
  apply (waitForBalance_returns nat sampleGenerate sampleBalance "owner" 0
           0 3%nat (BigNumber.ofZ 120)).
  - lia.
  - intros j Hj. lia.
  - discriminate.
Defined.

End BotFacts.

(* ===================================================================== *)
(** ** The whole schema of the environment *)
(* ===================================================================== *)

Module SchemaFacts.

Import Config Statements Shapes.

Lemma append_empty_r (s : string) : s +:+ EmptyString = s.
Proof.
  induction s as [|c s IH]; [reflexivity|].
  change (String c (s +:+ EmptyString) = String c s). now rewrite IH.
Qed.

(** [digits] splits off a string of digits, and tells whether it is
    empty. *)
Lemma digits_split (s : string) :
  exists ds,
    s = ds +:+ snd (digits s) /\ allDigits ds = true
    /\ fst (digits s) = negb (isEmpty ds).
Proof.
  induction s as [|c rest (ds & Hs & Hall & Hfst)].
  - exists EmptyString. repeat split.
  - cbn [digits]. destruct (isDigit c) eqn:Hc.
    + exists (String c ds). cbn [snd fst allDigits isEmpty].
      rewrite Hc, Hall. repeat split.
      change (String c rest = String c (ds +:+ snd (digits rest))).
      now rewrite <- Hs.
    + exists EmptyString. repeat split.
Qed.

(** [digits] takes all of a string of digits that is followed by
    something else. *)
Lemma digits_app (ds tail : string) :
  allDigits ds = true ->
  match tail with
  | String c _ => isDigit c = false
  | EmptyString => True
  end ->
  digits (ds +:+ tail) = (negb (isEmpty ds), tail).
Proof.
  intros Hall Htail. induction ds as [|d ds IH].
  - change (EmptyString +:+ tail) with tail.
    destruct tail as [|c t]; [reflexivity|].
    cbn [digits isEmpty negb]. now rewrite Htail.
  - cbn [allDigits] in Hall. apply andb_true_iff in Hall as [Hd Hall].
    change (String d ds +:+ tail) with (String d (ds +:+ tail)).
    cbn [digits]. rewrite Hd, (IH Hall). reflexivity.
Qed.

Lemma versionPattern_cons (c : ascii) (rest : string) :
  versionPattern (String c rest)
  = if Ascii.eqb c "v" then
      (let (some, rest1) := digits rest in
       some &&
       match rest1 with
       | EmptyString => true
       | String c1 rest2 =>
           if Ascii.eqb c1 "." then
             (let (some2, rest3) := digits rest2 in
              some2 && bool_decide (rest3 = EmptyString))
           else false
       end)
    else false.
Proof.
  destruct c as [[] [] [] [] [] [] [] []]; try reflexivity.
  cbn [versionPattern Ascii.eqb Bool.eqb]. cbv iota.
  destruct (digits rest) as [some rest1].
  destruct rest1 as [|c1 rest2]; [reflexivity|].
  destruct c1 as [[] [] [] [] [] [] [] []]; reflexivity.
Qed.

(** What the pattern accepts is a version. *)
Lemma versionPattern_sound (s : string) :
  versionPattern s = true -> isVersion s.
Proof.
  destruct s as [|c rest]; [discriminate|].
  rewrite versionPattern_cons.
  destruct (Ascii.eqb c "v") eqn:Hc; [|discriminate].
  apply Ascii.eqb_eq in Hc. subst c.
  destruct (digits_split rest) as (major & Hrest & Hmajor & Hsome).
  destruct (digits rest) as [some rest1]. cbn [fst snd] in *.
  intros Hp. apply andb_true_iff in Hp as [Hs Hinner].
  exists major. split; [|split; [exact Hmajor|]].
  { intros ->. cbn in Hsome. congruence. }
  destruct rest1 as [|c1 rest2].
  - left. now rewrite Hrest, append_empty_r.
  - right. destruct (Ascii.eqb c1 ".") eqn:Hc1; [|discriminate].
    apply Ascii.eqb_eq in Hc1. subst c1.
    destruct (digits_split rest2) as (minor & Hrest2 & Hminor & Hsome2).
    destruct (digits rest2) as [some2 rest3]. cbn [fst snd] in *.
    apply andb_true_iff in Hinner as [Hs2 Hend].
    apply bool_decide_eq_true in Hend. subst rest3.
    rewrite append_empty_r in Hrest2. subst rest2.
    exists minor. split; [|split; [exact Hminor|now rewrite Hrest]].
    intros ->. cbn in Hsome2. congruence.
Qed.

(** Every version is accepted by the pattern. *)
Lemma versionPattern_complete (s : string) :
  isVersion s -> versionPattern s = true.
Proof.
  intros (major & Hne & Hmajor & [-> | (minor & Hne2 & Hminor & ->)]);
    rewrite versionPattern_cons; cbn [Ascii.eqb Bool.eqb]; cbv iota.
  - rewrite <- (append_empty_r major).
    rewrite (digits_app major EmptyString Hmajor I).
    destruct major; [contradiction|reflexivity].
  - rewrite (digits_app major (String "." minor) Hmajor eq_refl).
    cbn [Ascii.eqb Bool.eqb]. cbv iota.
    rewrite <- (append_empty_r minor).
    rewrite (digits_app minor EmptyString Hminor I).
    destruct major; [contradiction|].
    destruct minor; [contradiction|reflexivity].
Qed.

(** X18. The pattern of [API_VERSION] accepts exactly the versions: the
    letter v, then one or more digits, then possibly a dot and one or more
    digits, and nothing before or after. *)
Theorem versionPattern_versions (s : string) :
  versionPattern s = true <-> isVersion s.
Proof.
  split; [apply versionPattern_sound|apply versionPattern_complete].
Qed.

Section WithJoi.

Variable Joi_number : string -> option Q.
Variable Joi_boolean : string -> option bool.

#[local] Abbreviation validate' := (validate Joi_number Joi_boolean).

(** X19. An environment that sets none of the five keys, whatever else it
    sets, validates to the defaults: test, port 3000, v1, regtest, and no
    playground flag. *)
Theorem validate_defaults (env : Env) :
  unset env ->
  validate' env
  = Ok {| NODE_ENV := "test"; PORT := 3000 # 1; API_VERSION := "v1";
          API_NETWORK := "regtest"; PLAYGROUND_ENABLE := None |}.
Proof.
  intros (He & Hp & Hv & Hn & Hg). unfold validate.
  rewrite He, Hp, Hv, Hn, Hg. reflexivity.
Qed.

Lemma stringValid_ok (allowed : list string) (dflt : string)
    (v : option string) (r : string) :
  stringValid allowed dflt v = Some r ->
  dflt ∈ allowed ->
  r ∈ allowed /\ r = default dflt v.
Proof.
  unfold stringValid. destruct v as [s|].
  - destruct (bool_decide (s ∈ allowed)) eqn:Hb; [|discriminate].
    apply bool_decide_eq_true in Hb. intros [= <-] _. now split.
  - intros [= <-] Hd. now split.
Qed.

Lemma stringRegex_ok (pattern : string -> bool) (dflt : string)
    (v : option string) (r : string) :
  stringRegex pattern dflt v = Some r ->
  pattern dflt = true ->
  pattern r = true /\ r = default dflt v.
Proof.
  unfold stringRegex. destruct v as [s|].
  - destruct (pattern s) eqn:Hb; [|discriminate].
    intros [= <-] _. now split.
  - intros [= <-] Hd. now split.
Qed.

(** X20. A configuration that passed the validation is well formed: its
    environment is production or test, its network is one of the three,
    its version is a version, and each of them is the value of the
    environment when the key is set. *)
Theorem validated_well_formed (env : Env) (c : Validated) :
  validate' env = Ok c ->
  NODE_ENV c ∈ ["production"; "test"]
  /\ API_NETWORK c ∈ networks
  /\ isVersion (API_VERSION c)
  /\ NODE_ENV c = default "test" (env !! "NODE_ENV")
  /\ API_VERSION c = default "v1" (env !! "API_VERSION")
  /\ API_NETWORK c = default "regtest" (env !! "API_NETWORK").
Proof.
  unfold validate.
  destruct (rule_NODE_ENV _) as [e|] eqn:He; [|discriminate].
  destruct (rule_PORT _ _) as [p|]; [|discriminate].
  destruct (rule_API_VERSION _) as [v|] eqn:Hv; [|discriminate].
  destruct (rule_API_NETWORK _) as [n|] eqn:Hn; [|discriminate].
  destruct (rule_PLAYGROUND_ENABLE _ _) as [g|]; [|discriminate].
  intros [= <-]. cbn [NODE_ENV API_NETWORK API_VERSION].
  apply stringValid_ok in He as [He1 He2];
    [|apply list_elem_of_In; cbn; tauto].
  apply stringValid_ok in Hn as [Hn1 Hn2];
    [|apply list_elem_of_In; cbn; tauto].
  apply stringRegex_ok in Hv as [Hv1 Hv2]; [|reflexivity].
  apply versionPattern_sound in Hv1.
  repeat split; assumption.
Qed.

(** X21. A value of [NODE_ENV] other than production and test fails the
    validation, which names that key. *)
Theorem node_env_rejected (env : Env) (s : string) :
  env !! "NODE_ENV" = Some s ->
  s <> "production" -> s <> "test" ->
  rejects "NODE_ENV" (validate' env) = true.
Proof.
  intros Hs Hp Ht. unfold validate.
  assert (He : rule_NODE_ENV (env !! "NODE_ENV") = None).
  { rewrite Hs. unfold rule_NODE_ENV, stringValid.
    rewrite bool_decide_eq_false_2; [reflexivity|].
    intros Hin. apply list_elem_of_In in Hin. cbn in Hin.
    destruct Hin as [<- | [<- | []]]; congruence. }
  rewrite He. unfold refused.
  destruct (rule_PORT _ _); destruct (rule_API_VERSION _);
    destruct (rule_API_NETWORK _); destruct (rule_PLAYGROUND_ENABLE _ _);
    cbn; apply bool_decide_eq_true; apply list_elem_of_In; cbn; tauto.
Qed.

(** X22. A value of [API_VERSION] that is not a version fails the
    validation, which names that key. *)
Theorem api_version_rejected (env : Env) (s : string) :
  env !! "API_VERSION" = Some s ->
  ~ isVersion s ->
  rejects "API_VERSION" (validate' env) = true.
Proof.
  intros Hs Hv. unfold validate.
  assert (He : rule_API_VERSION (env !! "API_VERSION") = None).
  { rewrite Hs. unfold rule_API_VERSION, stringRegex.
    destruct (versionPattern s) eqn:Hp; [|reflexivity].
    apply versionPattern_sound in Hp. contradiction. }
  rewrite He. unfold refused.
  destruct (rule_NODE_ENV _); destruct (rule_PORT _ _);
    destruct (rule_API_NETWORK _); destruct (rule_PLAYGROUND_ENABLE _ _);
    cbn; apply bool_decide_eq_true; apply list_elem_of_In; cbn; tauto.
Qed.

End WithJoi.

Lemma validate_defaults_witness :
  validate (fun _ => None) (fun _ => None) {[ "HOME" := "/root" ]}
  = Ok {| NODE_ENV := "test"; PORT := 3000 # 1; API_VERSION := "v1";
          API_NETWORK := "regtest"; PLAYGROUND_ENABLE := None |}.
Proof.
  apply (validate_defaults (fun _ => None) (fun _ => None)
           {[ "HOME" := "/root" ]}).
  repeat split.
Defined.

Lemma validated_well_formed_witness :
  validate (fun _ => None) (fun _ => None) {[ "API_VERSION" := "v2.1" ]}
  = Ok {| NODE_ENV := "test"; PORT := 3000 # 1; API_VERSION := "v2.1";
          API_NETWORK := "regtest"; PLAYGROUND_ENABLE := None |}
  /\ isVersion "v2.1".
Proof.
  split; [reflexivity|].
  apply (validated_well_formed (fun _ => None) (fun _ => None)
           {[ "API_VERSION" := "v2.1" ]}
           {| NODE_ENV := "test"; PORT := 3000 # 1; API_VERSION := "v2.1";
              API_NETWORK := "regtest"; PLAYGROUND_ENABLE := None |}).
  reflexivity.
Defined.

Lemma node_env_rejected_witness :
  rejects "NODE_ENV"
    (validate (fun _ => None) (fun _ => None) {[ "NODE_ENV" := "dev" ]})
  = true.
Proof.
  apply (node_env_rejected (fun _ => None) (fun _ => None)
           {[ "NODE_ENV" := "dev" ]} "dev");
    [reflexivity|discriminate|discriminate].
Defined.

Lemma api_version_rejected_witness :
  rejects "API_VERSION"
    (validate (fun _ => None) (fun _ => None) {[ "API_VERSION" := "1.0" ]})
  = true.
Proof.
  apply (api_version_rejected (fun _ => None) (fun _ => None)
           {[ "API_VERSION" := "1.0" ]} "1.0"); [reflexivity|].
  intros Hv. apply versionPattern_complete in Hv. discriminate Hv.
Defined.

End SchemaFacts.
